(** * aiowolframalpha: the document / view hierarchy

    A shallow embedding of [src/aiowolframalpha/__init__.py]: the typed
    views ([Result], [Pod], [Subpod], [Image], [Assumption], [Warning])
    that the library lays over the nested mapping produced by the XML
    decoder, together with the helpers they rely on ([xml_bool],
    [Document.from_doc], [Document.__getattr__], [ErrorHandler]).

    Python values are modelled as follows.
    - A [str] is a [string] (a sequence of characters).
    - A [dict] is an association list in insertion order, which is the
      order Python iterates it in.
    - The output of the XML decoder is a [value]: [None], a string, a
      mapping, or a list of those (the decoder never nests a list in a
      list).
    - A raised exception is the left injection of [result]. *)

From Stdlib Require Import String Ascii List ZArith Bool Lia Arith.
From Stdlib Require Import Floats.SpecFloat.
Import ListNotations.

Local Open Scope list_scope.
Local Open Scope string_scope.

(** ** Exceptions and the error monad *)

(** [AttributeError] carries the name of the attribute that is missing,
    [KeyError] the key. *)
Inductive exn : Type :=
| Exception (msg : string)
| AttributeError (arg : string)
| KeyError (key : string)
| TypeError
| ValueError
| JSONDecodeError
| StopIteration
| RecursionError.

Definition result (A : Type) : Type := (exn + A)%type.

Definition ret {A : Type} (a : A) : result A := inr a.
Definition raise {A : Type} (e : exn) : result A := inl e.

Definition bind {A B : Type} (m : result A) (k : A -> result B) : result B :=
  match m with
  | inl e => inl e
  | inr a => k a
  end.

Notation "x <- m ;; k" := (bind m (fun x => k))
  (at level 61, m at next level, right associativity).

Definition is_AttributeError (e : exn) : bool :=
  match e with
  | AttributeError _ => true
  | _ => false
  end.

(** ** Documents *)

#[warnings="-register-all"]
Inductive item : Type :=
| INone
| IStr (s : string)
| IDict (d : list (string * value))
with value : Type :=
| One (i : item)
| Many (l : list item).

Definition dict : Type := list (string * value).

Definition VNone : value := One INone.
Definition VStr (s : string) : value := One (IStr s).
Definition VDict (d : dict) : value := One (IDict d).

(** [self[key]] with [None] standing for [KeyError]; [key in self] is
    [dict_mem]. *)
Fixpoint dict_lookup (key : string) (d : dict) : option value :=
  match d with
  | [] => None
  | (k, v) :: rest => if String.eqb key k then Some v else dict_lookup key rest
  end.

Definition dict_mem (key : string) (d : dict) : bool :=
  match dict_lookup key d with
  | Some _ => true
  | None => false
  end.

Definition dict_getitem (key : string) (d : dict) : result value :=
  match dict_lookup key d with
  | Some v => ret v
  | None => raise (KeyError key)
  end.

(** [self.get(key)]: the default is [None]. *)
Definition dict_get (key : string) (d : dict) : value :=
  match dict_lookup key d with
  | Some v => v
  | None => VNone
  end.

(** ** Strings *)

(** The one-character strings that iterating a [str] yields. *)
Fixpoint str_chars (s : string) : list string :=
  match s with
  | EmptyString => []
  | String c rest => String c EmptyString :: str_chars rest
  end.

(** [s.replace(old, new)] for a non-empty [old]: every occurrence, left
    to right, without overlap.  [skip] counts the characters of a matched
    occurrence that are still to be dropped. *)
Fixpoint replace_from (old new : string) (skip : nat) (s : string) : string :=
  match s with
  | EmptyString => EmptyString
  | String c rest =>
      match skip with
      | S k => replace_from old new k rest
      | O =>
          if prefix old s
          then new ++ replace_from old new (String.length old - 1) rest
          else String c (replace_from old new 0 rest)
      end
  end.

Definition str_replace (old new s : string) : string :=
  replace_from old new 0 s.

(** [s.index(sub)]: the lowest index at which [sub] occurs; [None]
    stands for the [ValueError] Python raises when there is none. *)
Fixpoint str_find (sub s : string) : option nat :=
  if prefix sub s then Some 0
  else match s with
       | EmptyString => None
       | String _ rest => option_map S (str_find sub rest)
       end.

Definition str_index (sub s : string) : result nat :=
  match str_find sub s with
  | Some i => ret i
  | None => raise ValueError
  end.

(** The slice [s[:n]]. *)
Fixpoint str_take (n : nat) (s : string) : string :=
  match n, s with
  | S k, String c rest => String c (str_take k rest)
  | _, _ => EmptyString
  end.

(** ** Classes and views *)

Inductive kind : Type :=
| Document
| Assumption
| Warning
| Image
| Subpod
| Pod
| Result.

(** An instance of one of the classes: a [dict] subclass object. *)
Record view : Type := View { view_kind : kind; view_doc : dict }.

(** What iterating an arbitrary object can produce: a view, or a plain
    decoded item (a character or key is a one-item string). *)
Inductive pyelem : Type :=
| EView (v : view)
| ERaw (i : item).

Definition raw_str (s : string) : pyelem := ERaw (IStr s).

(** A lazy iterator: the elements in order, each one either produced or
    raising when it is reached.  Nothing after the first raising element
    is ever reached. *)
Definition iterator : Type := list (result pyelem).

(** Keys of a [dict] built by the library itself ([Result.details]). *)
Inductive hkey : Type :=
| KNone
| KStr (s : string).

Inductive pyobj : Type :=
| OVal (v : value)
| OInt (z : Z)
| OFloat (f : spec_float)
| OBool (b : bool)
| OIter (it : iterator)
| ODict (d : list (hkey * value)).

Definition hkey_eqb (a b : hkey) : bool :=
  match a, b with
  | KNone, KNone => true
  | KStr s, KStr t => String.eqb s t
  | _, _ => false
  end.

(** ** Consuming iterators *)

(** [next(it)] *)
Definition py_next (it : iterator) : result pyelem :=
  match it with
  | [] => raise StopIteration
  | x :: _ => x
  end.

(** Running an iterator to its end, as [list(it)] or a [for] loop does. *)
Fixpoint iter_list (it : iterator) : result (list pyelem) :=
  match it with
  | [] => ret []
  | inl e :: _ => raise e
  | inr x :: rest => xs <- iter_list rest ;; ret (x :: xs)
  end.

(** The generator [(x for x in it if cond(x))]. *)
Fixpoint gen_filter (cond : pyelem -> result bool) (it : iterator) : iterator :=
  match it with
  | [] => []
  | inl e :: _ => [inl e]
  | inr x :: rest =>
      match cond x with
      | inl e => [inl e]
      | inr true => inr x :: gen_filter cond rest
      | inr false => gen_filter cond rest
      end
  end.

(** [iter(v)] on a decoded value: a string yields its characters, a
    mapping its keys, a list its items; [None] is not iterable. *)
Definition iter_value (v : value) : result iterator :=
  match v with
  | One INone => raise TypeError
  | One (IStr s) => ret (map (fun c => inr (raw_str c)) (str_chars s))
  | One (IDict d) => ret (map (fun kv => inr (raw_str (fst kv))) d)
  | Many l => ret (map (fun i => inr (ERaw i)) l)
  end.

Definition hkey_elem (k : hkey) : pyelem :=
  match k with
  | KNone => ERaw INone
  | KStr s => raw_str s
  end.

(** [iter(o)] *)
Definition py_iter (o : pyobj) : result iterator :=
  match o with
  | OVal v => iter_value v
  | OIter it => ret it
  | ODict d => ret (map (fun kv => inr (hkey_elem (fst kv))) d)
  | OInt _ | OFloat _ | OBool _ => raise TypeError
  end.

(** [itertools.chain]: each argument is opened only when the ones before
    it are exhausted. *)
Fixpoint chain (objs : list pyobj) : iterator :=
  match objs with
  | [] => []
  | o :: rest =>
      match py_iter o with
      | inl e => [inl e]
      | inr it => (it ++ chain rest)%list
      end
  end.

(** [bool(o)] *)
Definition py_truth (o : pyobj) : bool :=
  match o with
  | OVal (One INone) => false
  | OVal (One (IStr s)) => negb (String.eqb s EmptyString)
  | OVal (One (IDict d)) => match d with [] => false | _ => true end
  | OVal (Many l) => match l with [] => false | _ => true end
  | OInt z => negb (z =? 0)%Z
  | OFloat f => match f with S754_zero _ => false | _ => true end
  | OBool b => b
  | OIter _ => true
  | ODict d => match d with [] => false | _ => true end
  end.

(** [hash(v)] of a dictionary key: mappings and lists are unhashable. *)
Definition hash_key (v : value) : result hkey :=
  match v with
  | One INone => ret KNone
  | One (IStr s) => ret (KStr s)
  | One (IDict _) | Many _ => raise TypeError
  end.

(** ** more_itertools.always_iterable(obj, base_type=dict) *)

Definition always_iterable (obj : value) : list item :=
  match obj with
  | One INone => []
  | One (IDict d) => [IDict d]
  | One (IStr s) => map IStr (str_chars s)
  | Many l => l
  end.

(** ** dict(...) *)

(** [d[k] = v] on an insertion-ordered mapping. *)
Fixpoint dict_set {K V : Type} (eqb : K -> K -> bool) (k : K) (v : V)
    (d : list (K * V)) : list (K * V) :=
  match d with
  | [] => [(k, v)]
  | (k', v') :: rest =>
      if eqb k k' then (k', v) :: rest else (k', v') :: dict_set eqb k v rest
  end.

(** [dict(x)] for one decoded item. *)
Definition dict_of_item (i : item) : result dict :=
  match i with
  | INone => raise TypeError
  | IStr EmptyString => ret []
  | IStr (String _ _) => raise ValueError
  | IDict d => ret d
  end.

(** One element of the sequence handed to [dict(...)]: it has to be
    iterable with exactly two elements, the first one the key. *)
Definition pair_of_item (i : item) : result (string * value) :=
  match i with
  | INone => raise TypeError
  | IStr (String a (String b EmptyString)) =>
      ret (String a EmptyString, VStr (String b EmptyString))
  | IStr _ => raise ValueError
  | IDict [(k1, _); (k2, _)] => ret (k1, VStr k2)
  | IDict _ => raise ValueError
  end.

Fixpoint dict_of_pairs (acc : dict) (l : list item) : result dict :=
  match l with
  | [] => ret acc
  | i :: rest =>
      kv <- pair_of_item i ;;
      dict_of_pairs (dict_set String.eqb (fst kv) (snd kv) acc) rest
  end.

Definition dict_init (v : value) : result dict :=
  match v with
  | One i => dict_of_item i
  | Many l => dict_of_pairs [] l
  end.

Section Views.

(** The interpreter's settings that the JSON decoder runs into:
    [sys.get_int_max_str_digits()] (4300 unless changed, 0 for no limit)
    and the number of nested calls that the recursion limit still allows
    when [json.loads] is entered. *)
Variable int_max_str_digits : nat.
Variable recursion_budget : nat.

(** ** json.loads

    The decoder of the standard library, as [xml_bool] uses it: the JSON
    grammar with the constants [NaN], [Infinity] and [-Infinity] that
    Python accepts besides, scanned the way CPython's scanner does.
    A text that is not JSON raises [JSONDecodeError]; an integer with
    more digits than the interpreter converts raises [ValueError]; an
    array or object nested deeper than the recursion limit allows raises
    [RecursionError]. *)

#[warnings="-register-all"]
Inductive json : Type :=
| JNull
| JBool (b : bool)
| JInt (z : Z)
| JFloat (m e : Z)              (* magnitude m * 10^e, before rounding *)
| JNaN
| JInfinity
| JString (raw : string)        (* the characters between the quotes *)
| JArray (l : list json)
| JObject (l : list (string * json)).

Inductive scan (A : Type) : Type :=
| Scanned (a : A) (rest : string)
| NoParse
| OutOfFuel
| Throws (e : exn).

Arguments Scanned {A} a rest.
Arguments NoParse {A}.
Arguments OutOfFuel {A}.
Arguments Throws {A} e.

Definition is_ws (c : ascii) : bool :=
  Ascii.eqb c " " || Ascii.eqb c "009" || Ascii.eqb c "010" || Ascii.eqb c "013".

Definition is_digit (c : ascii) : bool :=
  (48 <=? N_of_ascii c)%N && (N_of_ascii c <=? 57)%N.

Definition is_hex (c : ascii) : bool :=
  is_digit c
  || ((97 <=? N_of_ascii c)%N && (N_of_ascii c <=? 102)%N)
  || ((65 <=? N_of_ascii c)%N && (N_of_ascii c <=? 70)%N).

Definition is_simple_escape (c : ascii) : bool :=
  Ascii.eqb c "034" || Ascii.eqb c "\" || Ascii.eqb c "/" || Ascii.eqb c "b"
  || Ascii.eqb c "f" || Ascii.eqb c "n" || Ascii.eqb c "r" || Ascii.eqb c "t".

Fixpoint skip_ws (s : string) : string :=
  match s with
  | String c rest => if is_ws c then skip_ws rest else s
  | EmptyString => s
  end.

Fixpoint str_drop (n : nat) (s : string) : string :=
  match n, s with
  | S k, String _ rest => str_drop k rest
  | _, _ => s
  end.

(** The leading decimal digits of [s] and what follows them. *)
Fixpoint span_digits (s : string) : string * string :=
  match s with
  | String c rest =>
      if is_digit c
      then let (ds, tl) := span_digits rest in (String c ds, tl)
      else (EmptyString, s)
  | EmptyString => (EmptyString, s)
  end.

Fixpoint digits_value (acc : Z) (ds : string) : Z :=
  match ds with
  | EmptyString => acc
  | String c rest => digits_value (10 * acc + Z.of_N (N_of_ascii c) - 48) rest
  end.

(** After the opening quote: the raw contents up to the closing quote.
    A control character, an unknown escape, a [\u] without four hex
    digits and a missing closing quote are errors. *)
Fixpoint scan_string (s : string) : option (string * string) :=
  match s with
  | EmptyString => None
  | String c r =>
      if Ascii.eqb c "034" then Some (EmptyString, r)
      else if Ascii.eqb c "\" then
        match r with
        | EmptyString => None
        | String e r2 =>
            if Ascii.eqb e "u" then
              match r2 with
              | String h1 (String h2 (String h3 (String h4 r3))) =>
                  if is_hex h1 && is_hex h2 && is_hex h3 && is_hex h4 then
                    match scan_string r3 with
                    | Some (raw, tl) =>
                        Some (String c (String e (String h1 (String h2
                               (String h3 (String h4 raw))))), tl)
                    | None => None
                    end
                  else None
              | _ => None
              end
            else if is_simple_escape e then
              match scan_string r2 with
              | Some (raw, tl) => Some (String c (String e raw), tl)
              | None => None
              end
            else None
        end
      else if (N_of_ascii c <=? 31)%N then None
      else
        match scan_string r with
        | Some (raw, tl) => Some (String c raw, tl)
        | None => None
        end
  end.

(** The integer part: [0], or a non-zero digit and the digits after it. *)
Definition scan_int_part (s : string) : option (string * string) :=
  match s with
  | String c rest =>
      if Ascii.eqb c "0" then Some (String c EmptyString, rest)
      else if is_digit c then Some (span_digits s)
      else None
  | EmptyString => None
  end.

(** The fraction: a dot and at least one digit, or nothing. *)
Definition scan_frac (s : string) : option string * string :=
  match s with
  | String dot (String d rest) =>
      if Ascii.eqb dot "." && is_digit d
      then let (ds, tl) := span_digits (String d rest) in (Some ds, tl)
      else (None, s)
  | _ => (None, s)
  end.

(** The exponent: [e] or [E], an optional sign and at least one digit;
    without a digit nothing is consumed. *)
Definition scan_exp (s : string) : option Z * string :=
  match s with
  | String e rest =>
      if Ascii.eqb e "e" || Ascii.eqb e "E" then
        let (neg, after_sign) :=
          match rest with
          | String sg r =>
              if Ascii.eqb sg "-" then (true, r)
              else if Ascii.eqb sg "+" then (false, r)
              else (false, rest)
          | EmptyString => (false, rest)
          end in
        match span_digits after_sign with
        | (EmptyString, _) => (None, s)
        | (ds, tl) =>
            (Some (if neg then - digits_value 0 ds else digits_value 0 ds)%Z, tl)
        end
      else (None, s)
  | EmptyString => (None, s)
  end.

(** [int(...)] refuses a decimal numeral of more than 640 digits when it
    has more digits than the limit that is set. *)
Definition exceeds_digit_limit (digits : nat) : bool :=
  ((640 <? digits) && (0 <? int_max_str_digits)
   && (int_max_str_digits <? digits))%nat.

Definition scan_number (s : string) : scan json :=
  let (neg, s1) :=
    match s with
    | String c rest => if Ascii.eqb c "-" then (true, rest) else (false, s)
    | EmptyString => (false, s)
    end in
  match scan_int_part s1 with
  | None => NoParse
  | Some (ip, s2) =>
      let (frac, s3) := scan_frac s2 in
      let (ex, s4) := scan_exp s3 in
      match frac, ex with
      | None, None =>
          if exceeds_digit_limit (String.length ip) then Throws ValueError
          else
            Scanned (JInt (if neg then - digits_value 0 ip
                           else digits_value 0 ip)%Z) s4
      | _, _ =>
          let fd := match frac with Some ds => ds | None => EmptyString end in
          let e := match ex with Some z => z | None => 0%Z end in
          Scanned (JFloat (digits_value 0 (ip ++ fd))
                          (e - Z.of_nat (String.length fd))%Z) s4
      end
  end.

(** [scan_once]: one JSON value at the head of [s].  [depth] is the
    number of arrays and objects that may still be entered, one inside
    the other. *)
Fixpoint scan_once (fuel depth : nat) (s : string) : scan json :=
  match fuel with
  | O => OutOfFuel
  | S f =>
      match s with
      | EmptyString => NoParse
      | String c rest =>
          if Ascii.eqb c "034" then
            match scan_string rest with
            | Some (raw, tl) => Scanned (JString raw) tl
            | None => NoParse
            end
          else if Ascii.eqb c "{" then
            match depth with
            | O => Throws RecursionError
            | S inner =>
                match skip_ws rest with
                | String c1 r1 =>
                    if Ascii.eqb c1 "}" then Scanned (JObject []) r1
                    else scan_members f inner [] (String c1 r1)
                | EmptyString => NoParse
                end
            end
          else if Ascii.eqb c "[" then
            match depth with
            | O => Throws RecursionError
            | S inner =>
                match skip_ws rest with
                | String c1 r1 =>
                    if Ascii.eqb c1 "]" then Scanned (JArray []) r1
                    else scan_elements f inner [] (String c1 r1)
                | EmptyString => NoParse
                end
            end
          else if prefix "null" s then Scanned JNull (str_drop 4 s)
          else if prefix "true" s then Scanned (JBool true) (str_drop 4 s)
          else if prefix "false" s then Scanned (JBool false) (str_drop 5 s)
          else if prefix "NaN" s then Scanned JNaN (str_drop 3 s)
          else if prefix "Infinity" s then Scanned JInfinity (str_drop 8 s)
          else if prefix "-Infinity" s then Scanned JInfinity (str_drop 9 s)
          else scan_number s
      end
  end

(** The elements of an array, from the first character of an element. *)
with scan_elements (fuel depth : nat) (acc : list json) (s : string)
    : scan json :=
  match fuel with
  | O => OutOfFuel
  | S f =>
      match scan_once f depth s with
      | Scanned j tl =>
          match skip_ws tl with
          | String c r =>
              if Ascii.eqb c "]" then Scanned (JArray (acc ++ [j])) r
              else if Ascii.eqb c ","
              then scan_elements f depth (acc ++ [j]) (skip_ws r)
              else NoParse
          | EmptyString => NoParse
          end
      | NoParse => NoParse
      | OutOfFuel => OutOfFuel
      | Throws e => Throws e
      end
  end

(** The members of an object, from the quote that opens a name. *)
with scan_members (fuel depth : nat) (acc : list (string * json))
    (s : string) : scan json :=
  match fuel with
  | O => OutOfFuel
  | S f =>
      match s with
      | String q after_q =>
          if Ascii.eqb q "034" then
            match scan_string after_q with
            | Some (key, tl) =>
                match skip_ws tl with
                | String colon after_colon =>
                    if Ascii.eqb colon ":" then
                      match scan_once f depth (skip_ws after_colon) with
                      | Scanned j tl2 =>
                          match skip_ws tl2 with
                          | String c r =>
                              if Ascii.eqb c "}"
                              then Scanned (JObject (acc ++ [(key, j)])) r
                              else if Ascii.eqb c ","
                              then scan_members f depth (acc ++ [(key, j)])
                                                (skip_ws r)
                              else NoParse
                          | EmptyString => NoParse
                          end
                      | NoParse => NoParse
                      | OutOfFuel => OutOfFuel
                      | Throws e => Throws e
                      end
                    else NoParse
                | EmptyString => NoParse
                end
            | None => NoParse
            end
          else NoParse
      | EmptyString => NoParse
      end
  end.

Definition json_fuel (s : string) : nat := 2 * String.length s + 1.

Definition json_loads (s : string) : result json :=
  let s0 := skip_ws s in
  match scan_once (json_fuel s0) recursion_budget s0 with
  | Scanned j tl =>
      match skip_ws tl with
      | EmptyString => ret j
      | String _ _ => raise JSONDecodeError
      end
  | NoParse => raise JSONDecodeError
  | OutOfFuel => raise JSONDecodeError
  | Throws e => raise e
  end.

(** [bool(x)] of a decoded value.  A float is false when it is a zero,
    which a decimal [m * 10^e] rounds to exactly when it is at most
    [2^-1075], half the smallest positive double. *)
Definition float_nonzero (m e : Z) : bool :=
  ((0 <? m) && ((0 <=? e) || (10 ^ (- e) <? m * 2 ^ 1075)))%Z.

Definition truth (j : json) : bool :=
  match j with
  | JNull => false
  | JBool b => b
  | JInt z => negb (z =? 0)%Z
  | JFloat m e => float_nonzero m e
  | JNaN => true
  | JInfinity => true
  | JString raw => negb (String.eqb raw EmptyString)
  | JArray l => match l with [] => false | _ => true end
  | JObject l => match l with [] => false | _ => true end
  end.

(** ** xml_bool *)

Definition xml_bool (str_val : value) : result bool :=
  match str_val with
  | One (IStr s) => j <- json_loads s ;; ret (truth j)
  | _ => raise TypeError
  end.

(** The characters a JSON value can begin with. *)
Definition starts_value (c : ascii) : bool :=
  Ascii.eqb c "034" || Ascii.eqb c "{" || Ascii.eqb c "[" || Ascii.eqb c "n"
  || Ascii.eqb c "t" || Ascii.eqb c "f" || Ascii.eqb c "N" || Ascii.eqb c "I"
  || Ascii.eqb c "-" || is_digit c.

(** The letters, and the strings made of letters only. *)
Definition is_alpha (c : ascii) : bool :=
  ((65 <=? N_of_ascii c)%N && (N_of_ascii c <=? 90)%N)
  || ((97 <=? N_of_ascii c)%N && (N_of_ascii c <=? 122)%N).

Fixpoint all_alpha (s : string) : bool :=
  match s with
  | EmptyString => true
  | String c rest => is_alpha c && all_alpha rest
  end.

Fixpoint all_digits (s : string) : bool :=
  match s with
  | EmptyString => true
  | String c rest => is_digit c && all_digits rest
  end.

(** What an iterator hands out before it is exhausted or raises. *)
Fixpoint yielded (it : iterator) : list pyelem :=
  match it with
  | inr x :: rest => x :: yielded rest
  | _ => []
  end.

(** [d[k]] on a mapping built by the library, [None] for a missing key. *)
Fixpoint hkey_lookup (k : hkey) (d : list (hkey * value)) : option value :=
  match d with
  | [] => None
  | (k', v) :: rest => if hkey_eqb k k' then Some v else hkey_lookup k rest
  end.

(** The elements a generator's condition lets through. *)
Definition accepts (cond : pyelem -> result bool) (x : pyelem) : bool :=
  match cond x with
  | inr true => true
  | _ => false
  end.

(** ** Responses *)

(** What [query] reads of a response: [headers["Content-Type"]], absent
    when there is no such header, and [text("utf-8")], which may raise. *)
Record response : Type :=
  Response { content_type : option string; text : result string }.

(** ** Example documents

    Decoded responses for the closed instances at the end: a failed
    query with its error block, a document that only carries the
    [@error] attribute, a response with two pods and one with none, and
    the assumption of the specification's example. *)

Definition error_block : dict :=
  [("code", VStr "1"); ("msg", VStr "Invalid appid")].

Definition failed_doc : dict :=
  [("@success", VStr "false"); ("@error", VStr "true");
   ("error", VDict error_block)].

Definition flagged_doc : dict :=
  [("@success", VStr "true"); ("@error", VStr "true")].

Definition input_pod : dict :=
  [("@title", VStr "Input"); ("@position", VStr "100");
   ("@numsubpods", VStr "1");
   ("subpod", VDict [("@title", VStr ""); ("plaintext", VStr "pi")])].

Definition result_pod : dict :=
  [("@title", VStr "Result"); ("@position", VStr "200");
   ("@primary", VStr "true"); ("@numsubpods", VStr "1");
   ("subpod", VDict [("@title", VStr ""); ("plaintext", VStr "3.14159")])].

Definition pi_doc : dict :=
  [("@success", VStr "true"); ("@error", VStr "false");
   ("@numpods", VStr "2");
   ("pod", Many [IDict input_pod; IDict result_pod]);
   ("warnings", VDict [("@count", VStr "1");
                       ("spellcheck", VDict [("@word", VStr "pi")])])].

Definition no_pods_doc : dict :=
  [("@success", VStr "false"); ("@error", VStr "false");
   ("@numpods", VStr "0")].

Definition empty_pod : dict :=
  [("@title", VStr "Input"); ("@numsubpods", VStr "0")].

Definition untitled_pod_doc : dict :=
  [("@success", VStr "true");
   ("pod", VDict [("@id", VStr "Input");
                  ("subpod", VDict [("plaintext", VStr "pi")])])].

Definition constant_assumption : dict :=
  [("@type", VStr "Clash");
   ("@template", VStr "Assuming ${desc1}. Use ${word} instead?");
   ("@description", VStr "x is a constant")].

Definition failed_pod : dict :=
  [("@title", VStr "Input"); ("@error", VStr "true");
   ("error", VDict error_block)].

Definition two_subpods : dict :=
  [("@title", VStr "Decimal approximation"); ("@numsubpods", VStr "2");
   ("subpod", Many [IDict [("plaintext", VStr "3.14159")];
                    IDict [("plaintext", VStr "3.1416")]])].

Definition assumptions_container : dict :=
  [("@count", VStr "2");
   ("assumption", Many [IDict [("@type", VStr "Clash")];
                        IDict [("@type", VStr "Unit")]])].

Definition repeated_title_doc : dict :=
  [("pod", Many [IDict [("@title", VStr "Result"); ("plainText", VStr "old")];
                 IDict [("@title", VStr "Result"); ("plainText", VStr "new")]])].

(** ** Stand-ins for closed examples

    The examples evaluated at the end of this file never reach [int],
    [float] or the [repr] of a container; these take their place there.
    [decoded_as top] is a decoder that answers [top] for every stream.
    The interpreter is taken with its default limit on the digits of an
    integer and with room for 900 nested calls. *)

(** The numeral made of [n] ones. *)
Fixpoint ones (n : nat) : string :=
  match n with
  | O => EmptyString
  | S k => String "1" (ones k)
  end.

Definition default_max_str_digits : nat := 4300.
Definition ample_depth : nat := 900.
Definition int_unused (_ : value) : result Z := raise ValueError.
Definition float_unused (_ : value) : result spec_float := raise ValueError.
Definition repr_unused (_ : value) : string := EmptyString.
Definition decoded_as (top : dict) (_ : string) : result dict := ret top.

(** Sessions numbered by a counter that is the whole state of the world,
    and a server that answers every request with [r]. *)
Definition numbered_session (w : nat) : nat * nat := (w, S w).
Definition server_answers (r : result response) (_ : nat) (_ : string)
    (_ : list (string * string)) (w : nat) : result response * nat := (r, w).

(** The builtins [int] and [float], the [repr] of a container and the XML
    decoder are not part of this library. *)
Variable py_int : value -> result Z.
Variable py_float : value -> result spec_float.
Variable py_repr : value -> string.
Variable xmltodict_parse : string -> result dict.

(** The HTTP side: sessions, and the state of the world they act on.
    [create_http_session] opens a session; [session_get s url params]
    performs one GET and answers with a response or raises. *)
Variable session : Type.
Variable world : Type.

(** ** ErrorHandler *)

Definition has_error_handler (k : kind) : bool :=
  match k with
  | Pod | Result => true
  | _ => false
  end.

(** [format(v, '')], as a replacement field without a format spec does. *)
Definition format_value (v : value) : string :=
  match v with
  | One (IStr s) => s
  | One INone => "None"
  | _ => py_repr v
  end.

(** The replacement field [{error[key]}]. *)
Definition error_field (key : string) (self : dict) : result string :=
  err <- dict_getitem "error" self ;;
  match err with
  | One (IDict e) => v <- dict_getitem key e ;; ret (format_value v)
  | _ => raise TypeError
  end.

Definition _handle_error (self : dict) : result unit :=
  if negb (dict_mem "error" self) then ret tt
  else
    code <- error_field "code" self ;;
    msg <- error_field "msg" self ;;
    raise (Exception ("Error " ++ code ++ ": " ++ msg)).

(** [cls(x)]: [dict.__init__], then [_handle_error] for the classes that
    mix [ErrorHandler] in. *)
Definition new_from_dict (cls : kind) (d : dict) : result view :=
  if has_error_handler cls
  then _ <- _handle_error d ;; ret (View cls d)
  else ret (View cls d).

Definition construct (cls : kind) (x : value) : result view :=
  d <- dict_init x ;;
  new_from_dict cls d.

(** ** Document *)

Definition from_doc (cls : kind) (doc : value) : iterator :=
  map (fun i => v <- construct cls (One i) ;; ret (EView v))
      (always_iterable doc).

Inductive conv : Type :=
| CInt
| CFloat
| CFromDoc (cls : kind).

Definition _attr_types (cls : kind) (name : string) : option conv :=
  match cls with
  | Image =>
      if String.eqb name "height" then Some CInt
      else if String.eqb name "width" then Some CInt
      else None
  | Subpod =>
      if String.eqb name "img" then Some (CFromDoc Image) else None
  | Pod =>
      if String.eqb name "position" then Some CFloat
      else if String.eqb name "numsubpods" then Some CInt
      else if String.eqb name "subpod" then Some (CFromDoc Subpod)
      else None
  | Result =>
      if String.eqb name "pod" then Some (CFromDoc Pod) else None
  | Document | Assumption | Warning => None
  end.

Definition apply_conv (c : conv) (val : value) : result pyobj :=
  match c with
  | CInt => z <- py_int val ;; ret (OInt z)
  | CFloat => f <- py_float val ;; ret (OFloat f)
  | CFromDoc cls => ret (OIter (from_doc cls val))
  end.

(** [self._attr_types.get(name, lambda x: x)] *)
Definition attr_type (cls : kind) (name : string) (val : value) : result pyobj :=
  match _attr_types cls name with
  | Some c => apply_conv c val
  | None => ret (OVal val)
  end.

(** [Document.__getattr__] *)
Definition getattr (self : view) (name : string) : result pyobj :=
  let type := attr_type (view_kind self) name in
  let attr_name := "@" ++ name in
  let d := view_doc self in
  match (if dict_mem name d then dict_getitem name d
         else dict_getitem attr_name d) with
  | inl (KeyError _) => raise (AttributeError name)
  | inl e => raise e
  | inr val => type val
  end.

(** Python runs [__getattr__] only after the regular lookup has failed
    with [AttributeError]; that includes a property whose body raised
    one. *)
Definition property (self : view) (name : string) (body : result pyobj)
    : result pyobj :=
  match body with
  | inl e => if is_AttributeError e then getattr self name else raise e
  | inr o => ret o
  end.

(** [e.name] for a name that no class defines as a property and that no
    builtin type has ([plaintext], [plainText]; [title] on a view): a
    view answers through [__getattr__], a plain item has no such
    attribute. *)
Definition elem_getattr (e : pyelem) (name : string) : result pyobj :=
  match e with
  | EView v => getattr v name
  | ERaw _ => raise (AttributeError name)
  end.

(** [o == s] for a string literal [s] *)
Definition eq_str (o : pyobj) (s : string) : bool :=
  match o with
  | OVal (One (IStr t)) => String.eqb t s
  | _ => false
  end.

(** ** Assumption *)

Definition Assumption_text (self : view) : result pyobj :=
  property self "text"
    (template <- getattr self "template" ;;
     match template with
     | OVal (One (IStr tpl)) =>
         description <- getattr self "description" ;;
         match description with
         | OVal (One (IStr desc)) =>
             let text := str_replace "${desc1}" desc tpl in
             let text :=
               match (word <- getattr self "word" ;;
                      match word with
                      | OVal (One (IStr w)) => ret (str_replace "${word}" w text)
                      | _ => raise TypeError
                      end) with
               | inr replaced => replaced
               | inl _ => text
               end in
             i <- str_index ". " text ;;
             ret (OVal (VStr (str_take (i + 1) text)))
         | _ => raise TypeError
         end
     | _ => raise (AttributeError "replace")
     end).

(** ** Pod *)

Definition Pod_subpods (self : view) : result pyobj :=
  property self "subpods" (getattr self "subpod").

Definition Pod_primary (self : view) : result pyobj :=
  property self "primary"
    (if dict_mem "@primary" (view_doc self)
     then v <- dict_getitem "@primary" (view_doc self) ;;
          b <- xml_bool v ;;
          ret (OBool b)
     else ret (OBool false)).

Definition Pod_text (self : view) : result pyobj :=
  property self "text"
    (subpod <- getattr self "subpod" ;;
     it <- py_iter subpod ;;
     first <- py_next it ;;
     elem_getattr first "plaintext").

(** ** Result *)

Definition Result_init (stream : string) : result view :=
  parsed <- xmltodict_parse stream ;;
  doc <- dict_getitem "queryresult" parsed ;;
  construct Result doc.

Definition Result_pods (self : view) : result pyobj :=
  property self "pods" (getattr self "pod").

Definition Result_assumptions (self : view) : result pyobj :=
  property self "assumptions"
    (ret (OIter (from_doc Assumption (dict_get "assumptions" (view_doc self))))).

Definition Result_warnings (self : view) : result pyobj :=
  property self "warnings"
    (ret (OIter (from_doc Warning (dict_get "warnings" (view_doc self))))).

Definition Result_info (self : view) : result pyobj :=
  property self "info"
    (pods <- Result_pods self ;;
     assumptions <- Result_assumptions self ;;
     warnings <- Result_warnings self ;;
     ret (OIter (chain [pods; assumptions; warnings]))).

(** [__iter__] has to hand back an iterator. *)
Definition Result_iter (self : view) : result iterator :=
  info <- Result_info self ;;
  match info with
  | OIter it => ret it
  | _ => raise TypeError
  end.

Definition Result_len (self : view) : result nat :=
  info <- Result_info self ;;
  it <- py_iter info ;;
  xs <- iter_list it ;;
  ret (List.length xs).

(** [pod.primary]: the property on a [Pod], [__getattr__] on another
    view. *)
Definition elem_primary (e : pyelem) : result pyobj :=
  match e with
  | EView v =>
      match view_kind v with
      | Pod => Pod_primary v
      | _ => getattr v "primary"
      end
  | ERaw _ => raise (AttributeError "primary")
  end.

(** [pod.primary or pod.title == 'Result'] *)
Definition is_result_pod (pod : pyelem) : result bool :=
  primary <- elem_primary pod ;;
  if py_truth primary then ret true
  else title <- elem_getattr pod "title" ;; ret (eq_str title "Result").

Definition Result_results (self : view) : result pyobj :=
  property self "results"
    (pods <- Result_pods self ;;
     it <- py_iter pods ;;
     ret (OIter (gen_filter is_result_pod it))).

(** One step of the comprehension [{pod.title: pod.plainText for ...}].
    A plain item never gets as far as the insertion: none has an
    attribute [plainText]. *)
Definition details_step (acc : list (hkey * value)) (pod : pyelem)
    : result (list (hkey * value)) :=
  match pod with
  | EView v =>
      title <- getattr v "title" ;;
      text <- getattr v "plainText" ;;
      match title, text with
      | OVal t, OVal x => k <- hash_key t ;; ret (dict_set hkey_eqb k x acc)
      | _, _ => raise TypeError
      end
  | ERaw _ => raise (AttributeError "plainText")
  end.

Fixpoint details_loop (acc : list (hkey * value)) (it : iterator)
    : result (list (hkey * value)) :=
  match it with
  | [] => ret acc
  | inl e :: _ => raise e
  | inr pod :: rest => acc' <- details_step acc pod ;; details_loop acc' rest
  end.

Definition Result_details (self : view) : result pyobj :=
  property self "details"
    (pods <- Result_pods self ;;
     it <- py_iter pods ;;
     d <- details_loop [] it ;;
     ret (ODict d)).

(** ** The field access protocol, in the words of the specification *)

(** Look the value up under the plain name, then under the name with an
    "@" in front. *)
Definition find_field (d : dict) (name : string) : option value :=
  match dict_lookup name d with
  | Some v => Some v
  | None => dict_lookup ("@" ++ name) d
  end.

(** The registered conversion, the identity when there is none. *)
Definition conversion_for (cls : kind) (name : string) (v : value)
    : result pyobj :=
  match _attr_types cls name with
  | None => ret (OVal v)
  | Some CInt => z <- py_int v ;; ret (OInt z)
  | Some CFloat => f <- py_float v ;; ret (OFloat f)
  | Some (CFromDoc sub) => ret (OIter (from_doc sub v))
  end.

Definition field_access (self : view) (name : string) : result pyobj :=
  match find_field (view_doc self) name with
  | Some v => conversion_for (view_kind self) name v
  | None => raise (AttributeError name)
  end.

(** ** Result.results, in the words of the specification *)

Definition pod_elem (d : dict) : pyelem := EView (View Pod d).

(** The primary flag of a pod: the decoded [@primary] attribute, false
    without one. *)
Definition primary_flag (d : dict) : bool :=
  match dict_lookup "@primary" d with
  | Some v => match xml_bool v with inr b => b | inl _ => false end
  | None => false
  end.

Definition title_is_Result (d : dict) : bool :=
  match find_field d "title" with
  | Some (One (IStr t)) => String.eqb t "Result"
  | _ => false
  end.

Definition selected (d : dict) : bool := primary_flag d || title_is_Result d.

(** A pod whose flag decodes and which, unless primary, has a title. *)
Definition readable (d : dict) : Prop :=
  (forall v, dict_lookup "@primary" d = Some v -> exists b, xml_bool v = ret b)
  /\ (primary_flag d = false -> find_field d "title" <> None).

(** ** Fields that wrap child nodes *)

(** The fields whose registered conversion is [from_doc] of a class. *)
Inductive wraps : kind -> string -> kind -> Prop :=
| wraps_pod : wraps Result "pod" Pod
| wraps_subpod : wraps Pod "subpod" Subpod
| wraps_img : wraps Subpod "img" Image.

(** [Pod.texts]: the list comprehension over the subpods.  The value is
    the list, or what [__getattr__("texts")] answers after the body
    raised [AttributeError]. *)
Fixpoint texts_loop (it : iterator) : result (list pyobj) :=
  match it with
  | [] => ret []
  | inl e :: _ => raise e
  | inr subpod :: rest =>
      x <- elem_getattr subpod "plaintext" ;;
      xs <- texts_loop rest ;;
      ret (x :: xs)
  end.

Definition Pod_texts (self : view) : result (list pyobj + pyobj) :=
  match (subpod <- getattr self "subpod" ;;
         it <- py_iter subpod ;;
         texts_loop it) with
  | inr l => ret (inl l)
  | inl e =>
      if is_AttributeError e
      then o <- getattr self "texts" ;; ret (inr o)
      else raise e
  end.

(** ** Client *)

Variable create_http_session : world -> session * world.
Variable session_get :
  session -> string -> list (string * string) -> world
  -> result response * world.

Record client : Type :=
  Client { app_id : string; client_session : option session; url : string }.

(** [Client.__init__] *)
Definition Client_init (app_id : string) (s : option session) : client :=
  Client app_id s "https://api.wolframalpha.com/v2/query".

(** How a call of [query] ends: with a Result, with an exception, or
    with the failed [assert] on the content type. *)
Inductive outcome : Type :=
| Returned (r : view)
| Raised (e : exn)
| AssertionError.

(** The parameters of the request, in the order they are chained. *)
Definition query_data (self : client) (input : string)
    (params kwargs : list (string * string)) : list (string * string) :=
  (params ++ [("input", input); ("appid", app_id self)] ++ kwargs)%list.

(** What [query] does with the response. *)
Definition query_response (r : result response) : outcome :=
  match r with
  | inl e => Raised e
  | inr resp =>
      match content_type resp with
      | None => Raised (KeyError "Content-Type")
      | Some ct =>
          if String.eqb ct "text/xml;charset=utf-8" then
            match text resp with
            | inl e => Raised e
            | inr body =>
                match Result_init body with
                | inl e => Raised e
                | inr v => Returned v
                end
            end
          else AssertionError
      end
  end.

(** [Client.query]: the outcome, the client afterwards, the world
    afterwards. *)
Definition query (self : client) (input : string)
    (params kwargs : list (string * string)) (w : world)
    : outcome * client * world :=
  let data := query_data self input params kwargs in
  let '(s, self, w) :=
    match client_session self with
    | None =>
        let (s, w') := create_http_session w in
        (s, Client (app_id self) (Some s) (url self), w')
    | Some s => (s, self, w)
    end in
  let (r, w) := session_get s (url self) data w in
  (query_response r, self, w).

(** The session a call uses, and the world in which it sends the
    request: the client's own session, or a newly created one. *)
Definition session_used (self : client) (w : world) : session * world :=
  match client_session self with
  | Some s => (s, w)
  | None => create_http_session w
  end.

(** ** Result.details, in the words of the code

    The text kept for a title: that of the last pod with this title. *)
Fixpoint last_text (t : string) (pods : list dict) : option value :=
  match pods with
  | [] => None
  | p :: rest =>
      match last_text t rest with
      | Some x => Some x
      | None =>
          match find_field p "title" with
          | Some (One (IStr t')) =>
              if String.eqb t t' then find_field p "plainText" else None
          | _ => None
          end
      end
  end.

(** A pod that [details] can take in: no error block, a string for a
    title, and a field [plainText]. *)
Definition detailed (p : dict) : Prop :=
  dict_lookup "error" p = None
  /\ (exists t, find_field p "title" = Some (VStr t))
  /\ (exists x, find_field p "plainText" = Some x).

(** * Properties *)

Lemma dict_mem_false (key : string) (d : dict) :
  dict_lookup key d = None -> dict_mem key d = false.
Proof. intros H. unfold dict_mem. now rewrite H. Qed.

Lemma dict_mem_true (key : string) (d : dict) (v : value) :
  dict_lookup key d = Some v -> dict_mem key d = true.
Proof. intros H. unfold dict_mem. now rewrite H. Qed.

Lemma attr_type_conversion (cls : kind) (name : string) (v : value) :
  attr_type cls name v = conversion_for cls name v.
Proof.
  unfold attr_type, conversion_for.
  destruct (_attr_types cls name) as [[ | | sub] | ]; reflexivity.
Qed.

Lemma getattr_field_access (self : view) (name : string) :
  getattr self name = field_access self name.
Proof.
  unfold getattr, field_access, find_field, dict_mem, dict_getitem.
  destruct (dict_lookup name (view_doc self)) as [v | ].
  - apply attr_type_conversion.
  - destruct (dict_lookup ("@" ++ name) (view_doc self)) as [v | ]; simpl.
    + apply attr_type_conversion.
    + reflexivity.
Qed.

(** C7.  Field access on any view, for any name: the value under the
    plain key if there is one, otherwise the value under the "@" key,
    passed through the conversion registered for the name (the identity
    when none is registered); with neither key the access raises
    [AttributeError], which a present but empty string does not. *)
Theorem getattr_protocol (self : view) (name : string) :
  getattr self name =
    match dict_lookup name (view_doc self) with
    | Some v => conversion_for (view_kind self) name v
    | None =>
        match dict_lookup ("@" ++ name) (view_doc self) with
        | Some v => conversion_for (view_kind self) name v
        | None => raise (AttributeError name)
        end
    end
  /\ (_attr_types (view_kind self) name = None ->
      find_field (view_doc self) name = Some (VStr "") ->
      getattr self name = ret (OVal (VStr ""))
      /\ getattr self name <> raise (AttributeError name)).
Proof.
  split.
  - rewrite getattr_field_access. unfold field_access, find_field.
    destruct (dict_lookup name (view_doc self)); [reflexivity | ].
    destruct (dict_lookup ("@" ++ name) (view_doc self)); reflexivity.
  - intros Hnone Hfound. rewrite getattr_field_access.
    unfold field_access. rewrite Hfound.
    unfold conversion_for. rewrite Hnone.
    split; [reflexivity | discriminate].
Qed.

(** ** Construction and the error block *)

Lemma handle_error_absent (d : dict) :
  dict_lookup "error" d = None -> _handle_error d = ret tt.
Proof.
  intros H. unfold _handle_error. now rewrite (dict_mem_false _ _ H).
Qed.

Lemma error_field_text (d e : dict) (key text : string) :
  dict_lookup "error" d = Some (VDict e) ->
  dict_lookup key e = Some (VStr text) ->
  error_field key d = ret text.
Proof.
  intros He Hk. unfold error_field, dict_getitem.
  rewrite He. cbn [bind ret VDict]. now rewrite Hk.
Qed.

Lemma handle_error_present (d e : dict) (code msg : string) :
  dict_lookup "error" d = Some (VDict e) ->
  dict_lookup "code" e = Some (VStr code) ->
  dict_lookup "msg" e = Some (VStr msg) ->
  _handle_error d = raise (Exception ("Error " ++ code ++ ": " ++ msg)).
Proof.
  intros He Hc Hm. unfold _handle_error.
  rewrite (dict_mem_true _ _ _ He).
  rewrite (error_field_text _ _ _ _ He Hc), (error_field_text _ _ _ _ He Hm).
  reflexivity.
Qed.

Lemma construct_no_error (cls : kind) (d : dict) :
  dict_lookup "error" d = None -> construct cls (VDict d) = ret (View cls d).
Proof.
  intros H. unfold construct, new_from_dict. simpl.
  destruct (has_error_handler cls); [ | reflexivity].
  now rewrite (handle_error_absent _ H).
Qed.

Lemma construct_plain (cls : kind) (d : dict) :
  has_error_handler cls = false -> construct cls (VDict d) = ret (View cls d).
Proof.
  intros H. unfold construct, new_from_dict. simpl. now rewrite H.
Qed.

Lemma Result_init_construct (stream : string) (top : dict) (doc : value) :
  xmltodict_parse stream = ret top ->
  dict_lookup "queryresult" top = Some doc ->
  Result_init stream = construct Result doc.
Proof.
  intros Hp Hq. unfold Result_init. rewrite Hp. simpl.
  unfold dict_getitem. now rewrite Hq.
Qed.

(** C2.  Building a [Result] or a [Pod] over a mapping that has the
    plain key [error], holding a mapping with the children [code] and
    [msg], raises [Exception("Error <code>: <msg>")] and yields no view;
    over a mapping without that key it succeeds.  The same holds for a
    [Result] built from a response stream whose [queryresult] is that
    mapping. *)
Theorem construction_checks_error (cls : kind) (d : dict) :
  has_error_handler cls = true ->
  (forall (e : dict) (code msg : string),
      dict_lookup "error" d = Some (VDict e) ->
      dict_lookup "code" e = Some (VStr code) ->
      dict_lookup "msg" e = Some (VStr msg) ->
      construct cls (VDict d)
        = raise (Exception ("Error " ++ code ++ ": " ++ msg)))
  /\ (dict_lookup "error" d = None ->
      construct cls (VDict d) = ret (View cls d))
  /\ (forall (stream : string) (top : dict),
        xmltodict_parse stream = ret top ->
        dict_lookup "queryresult" top = Some (VDict d) ->
        Result_init stream = construct Result (VDict d)).
Proof.
  intros Hcls. repeat split.
  - intros e code msg He Hc Hm.
    unfold construct, new_from_dict. simpl. rewrite Hcls.
    now rewrite (handle_error_present _ _ _ _ He Hc Hm).
  - apply construct_no_error.
  - intros stream top Hp Hq. exact (Result_init_construct _ _ _ Hp Hq).
Qed.

(** C10.  Only the plain key [error] counts: a mapping that carries the
    attribute key [@error], whatever its value, and no plain [error]
    builds a [Result] or a [Pod] without raising. *)
Theorem attribute_error_key_ignored (cls : kind) (d : dict) (flag : value) :
  has_error_handler cls = true ->
  dict_lookup "@error" d = Some flag ->
  dict_lookup "error" d = None ->
  construct cls (VDict d) = ret (View cls d)
  /\ (forall (stream : string) (top : dict),
        xmltodict_parse stream = ret top ->
        dict_lookup "queryresult" top = Some (VDict d) ->
        Result_init stream = ret (View Result d)).
Proof.
  intros _ _ Hnone. split.
  - now apply construct_no_error.
  - intros stream top Hp Hq.
    rewrite (Result_init_construct _ _ _ Hp Hq).
    now apply construct_no_error.
Qed.

(** ** Wrapped child nodes *)

Lemma wraps_registered (cls : kind) (name : string) (sub : kind) :
  wraps cls name sub -> _attr_types cls name = Some (CFromDoc sub).
Proof. intros []; reflexivity. Qed.

Lemma getattr_wraps (cls : kind) (name : string) (sub : kind) (d : dict) :
  wraps cls name sub ->
  getattr (View cls d) name =
    match find_field d name with
    | Some v => ret (OIter (from_doc sub v))
    | None => raise (AttributeError name)
    end.
Proof.
  intros Hw. rewrite getattr_field_access. unfold field_access. simpl.
  destruct (find_field d name); [ | reflexivity].
  unfold conversion_for. now rewrite (wraps_registered _ _ _ Hw).
Qed.

Lemma from_doc_singleton (cls : kind) (d : dict) :
  (has_error_handler cls = true -> dict_lookup "error" d = None) ->
  from_doc cls (VDict d) = [ret (EView (View cls d))].
Proof.
  intros H. unfold from_doc. cbn [always_iterable VDict map].
  fold (VDict d).
  destruct (has_error_handler cls) eqn:Hcls.
  - now rewrite (construct_no_error _ _ (H eq_refl)).
  - now rewrite (construct_plain _ _ Hcls).
Qed.



(** ** Pod.text *)

Lemma getattr_plain_field (cls : kind) (d : dict) (name : string) (x : value) :
  _attr_types cls name = None ->
  find_field d name = Some x ->
  getattr (View cls d) name = ret (OVal x).
Proof.
  intros Hn Hf. rewrite getattr_field_access. unfold field_access. simpl.
  rewrite Hf. unfold conversion_for. now rewrite Hn.
Qed.

Lemma getattr_missing (cls : kind) (d : dict) (name : string) :
  find_field d name = None ->
  getattr (View cls d) name = raise (AttributeError name).
Proof.
  intros Hf. rewrite getattr_field_access. unfold field_access. simpl.
  now rewrite Hf.
Qed.

(** C9, as amended.  With the [subpod] field present: when it holds at
    least one subpod and the first one has a [plaintext] field,
    [Pod.text] is that field; when it holds none ([None] or an empty
    list), [Pod.text] raises [StopIteration].  With no [subpod] field,
    or with a first subpod that has no [plaintext] field, the body fails
    with a missing attribute and [Pod.text] is what
    [__getattr__("text")] gives: the field [text] of the pod when it has
    one, otherwise [AttributeError("text")]. *)
Theorem Pod_text_first_subpod (d : dict) :
  (forall (v : value) (sd : dict) (rest : list item) (x : value),
      find_field d "subpod" = Some v ->
      always_iterable v = IDict sd :: rest ->
      find_field sd "plaintext" = Some x ->
      Pod_text (View Pod d) = ret (OVal x))
  /\ (forall v : value,
        find_field d "subpod" = Some v ->
        always_iterable v = [] ->
        Pod_text (View Pod d) = raise StopIteration)
  /\ (find_field d "subpod" = None ->
      Pod_text (View Pod d)
      = match find_field d "text" with
        | Some x => ret (OVal x)
        | None => raise (AttributeError "text")
        end)
  /\ (forall (v : value) (sd : dict) (rest : list item),
        find_field d "subpod" = Some v ->
        always_iterable v = IDict sd :: rest ->
        find_field sd "plaintext" = None ->
        Pod_text (View Pod d)
        = match find_field d "text" with
          | Some x => ret (OVal x)
          | None => raise (AttributeError "text")
          end).
Proof.
  assert (Hfb : getattr (View Pod d) "text"
                = match find_field d "text" with
                  | Some x => ret (OVal x)
                  | None => raise (AttributeError "text")
                  end).
  { destruct (find_field d "text") as [x | ] eqn:E.
    - now apply getattr_plain_field.
    - now apply getattr_missing. }
  split; [ | split; [ | split]].
  - intros v sd rest x Hsub Hit Hplain. unfold Pod_text.
    rewrite (getattr_wraps _ _ _ _ wraps_subpod), Hsub.
    cbn [bind ret py_iter]. unfold from_doc. rewrite Hit.
    cbn [map py_next]. fold (VDict sd).
    rewrite (construct_plain Subpod sd eq_refl).
    cbn [bind ret elem_getattr].
    now rewrite (getattr_plain_field Subpod sd "plaintext" x eq_refl Hplain).
  - intros v Hsub Hit. unfold Pod_text.
    rewrite (getattr_wraps _ _ _ _ wraps_subpod), Hsub.
    cbn [bind ret py_iter]. unfold from_doc. rewrite Hit. reflexivity.
  - intros Hsub. unfold Pod_text.
    rewrite (getattr_wraps _ _ _ _ wraps_subpod), Hsub.
    cbn [bind raise property is_AttributeError]. exact Hfb.
  - intros v sd rest Hsub Hit Hplain. unfold Pod_text.
    rewrite (getattr_wraps _ _ _ _ wraps_subpod), Hsub.
    cbn [bind ret py_iter]. unfold from_doc. rewrite Hit.
    cbn [map py_next]. fold (VDict sd).
    rewrite (construct_plain Subpod sd eq_refl).
    cbn [bind ret elem_getattr].
    rewrite (getattr_missing Subpod sd "plaintext" Hplain).
    cbn [property raise is_AttributeError]. exact Hfb.
Qed.

(** ** Iterating a Result *)

Lemma iter_list_app (a b : iterator) (xs : list pyelem) :
  iter_list a = ret xs ->
  iter_list (a ++ b)%list = (ys <- iter_list b ;; ret (xs ++ ys)%list).
Proof.
  revert xs. induction a as [ | [e | x] a IH]; intros xs H; simpl in *.
  - injection H as <-. destruct (iter_list b); reflexivity.
  - discriminate.
  - destruct (iter_list a) as [e | xs'] eqn:Ha; simpl in H; [discriminate | ].
    injection H as <-. rewrite (IH xs' eq_refl).
    destruct (iter_list b); reflexivity.
Qed.

Lemma iter_list_app_ok (a b : iterator) (xs ys : list pyelem) :
  iter_list a = ret xs -> iter_list b = ret ys ->
  iter_list (a ++ b)%list = ret (xs ++ ys)%list.
Proof.
  intros Ha Hb. rewrite (iter_list_app _ _ _ Ha), Hb. reflexivity.
Qed.

(** C4, as amended.  Over a response whose [queryresult] is a mapping
    with no error block a Result is built; and whenever its pods, its
    assumptions and its warnings can each be iterated to the end,
    iterating the Result yields the pods, then the assumptions, then the
    warnings, and [len] of it is the sum of the three counts.  With no
    field [pod], [pods] or [info] in the mapping, iterating the Result
    and [len] raise [AttributeError]. *)
Theorem Result_info_order (d : dict) :
  dict_lookup "error" d = None ->
  construct Result (VDict d) = ret (View Result d)
  /\ (forall (stream : string) (top : dict),
        xmltodict_parse stream = ret top ->
        dict_lookup "queryresult" top = Some (VDict d) ->
        Result_init stream = ret (View Result d))
  /\ (forall (pods : pyobj) (pit : iterator) (ps asms wrns : list pyelem),
        Result_pods (View Result d) = ret pods ->
        py_iter pods = ret pit ->
        iter_list pit = ret ps ->
        iter_list (from_doc Assumption (dict_get "assumptions" d)) = ret asms ->
        iter_list (from_doc Warning (dict_get "warnings" d)) = ret wrns ->
        (exists it : iterator,
            Result_iter (View Result d) = ret it
            /\ iter_list it = ret (ps ++ asms ++ wrns)%list)
        /\ Result_len (View Result d)
           = ret (List.length ps + List.length asms + List.length wrns))
  /\ (find_field d "pod" = None ->
      find_field d "pods" = None ->
      find_field d "info" = None ->
      Result_iter (View Result d) = raise (AttributeError "info")
      /\ Result_len (View Result d) = raise (AttributeError "info")).
Proof.
  intros Herr. split; [now apply construct_no_error | ].
  split.
  { intros stream top Hp Hq. rewrite (Result_init_construct _ _ _ Hp Hq).
    now apply construct_no_error. }
  split.
  - intros pods pit ps asms wrns Hpods Hpit Hps Ha Hw.
    assert (Hinfo : Result_info (View Result d)
                    = ret (OIter (pit ++ from_doc Assumption (dict_get "assumptions" d)
                                      ++ from_doc Warning (dict_get "warnings" d)
                                      ++ [])%list)).
    { unfold Result_info. rewrite Hpods.
      unfold Result_assumptions, Result_warnings.
      cbn [property bind ret view_doc chain py_iter]. now rewrite Hpit. }
    assert (Hall : iter_list (pit ++ from_doc Assumption (dict_get "assumptions" d)
                                  ++ from_doc Warning (dict_get "warnings" d)
                                  ++ [])%list
                   = ret (ps ++ asms ++ wrns)%list).
    { rewrite app_nil_r.
      apply iter_list_app_ok; [exact Hps | ].
      apply iter_list_app_ok; assumption. }
    split.
    + eexists. split; [ | exact Hall].
      unfold Result_iter. now rewrite Hinfo.
    + unfold Result_len. rewrite Hinfo. cbn [bind ret py_iter].
      rewrite Hall. cbn [bind ret]. f_equal.
      rewrite !length_app. lia.
  - intros Hpod Hpods Hno.
    assert (Hinfo : Result_info (View Result d) = raise (AttributeError "info")).
    { unfold Result_info, Result_pods.
      rewrite (getattr_missing Result d "pod" Hpod).
      cbn [property raise is_AttributeError].
      rewrite (getattr_missing Result d "pods" Hpods).
      cbn [bind raise is_AttributeError].
      now apply getattr_missing. }
    unfold Result_iter, Result_len. rewrite Hinfo. split; reflexivity.
Qed.

(** ** Result.results *)

Lemma gen_filter_list (cond : pyelem -> result bool) (f : pyelem -> bool)
    (it : iterator) (xs : list pyelem) :
  iter_list it = ret xs ->
  Forall (fun x => cond x = ret (f x)) xs ->
  iter_list (gen_filter cond it) = ret (filter f xs).
Proof.
  revert xs. induction it as [ | [e | x] it IH]; intros xs H Hall; simpl in *.
  - injection H as <-. reflexivity.
  - discriminate.
  - destruct (iter_list it) as [e | xs'] eqn:Hit; simpl in H; [discriminate | ].
    injection H as <-. inversion Hall as [ | ? ? Hx Hrest]; subst.
    rewrite Hx. cbn [ret filter]. specialize (IH xs' eq_refl Hrest).
    destruct (f x); simpl; now rewrite IH.
Qed.

Lemma Pod_primary_absent (d : dict) :
  dict_lookup "@primary" d = None ->
  Pod_primary (View Pod d) = ret (OBool false).
Proof.
  intros H. unfold Pod_primary. cbn [view_doc].
  now rewrite (dict_mem_false _ _ H).
Qed.

Lemma Pod_primary_flag (d : dict) :
  (forall v, dict_lookup "@primary" d = Some v -> exists b, xml_bool v = ret b) ->
  Pod_primary (View Pod d) = ret (OBool (primary_flag d)).
Proof.
  intros H. unfold primary_flag.
  destruct (dict_lookup "@primary" d) as [v | ] eqn:Hp.
  - destruct (H v eq_refl) as [b Hb].
    unfold Pod_primary. cbn [view_doc].
    rewrite (dict_mem_true _ _ _ Hp). unfold dict_getitem. rewrite Hp.
    cbn [bind ret]. rewrite Hb. reflexivity.
  - now apply Pod_primary_absent.
Qed.

Lemma is_result_pod_selected (d : dict) :
  readable d -> is_result_pod (pod_elem d) = ret (selected d).
Proof.
  intros [Hflag Htitle]. unfold is_result_pod, pod_elem, selected.
  cbn [elem_primary view_kind]. rewrite (Pod_primary_flag _ Hflag).
  cbn [bind ret py_truth].
  destruct (primary_flag d) eqn:Hp; [reflexivity | ].
  cbn [orb elem_getattr]. unfold title_is_Result.
  destruct (find_field d "title") as [t | ] eqn:Ht.
  - rewrite (getattr_plain_field Pod d "title" t eq_refl Ht). reflexivity.
  - now destruct (Htitle eq_refl).
Qed.

(** C8, as amended.  For a Result whose pods can be iterated to the end,
    each with a flag that decodes and, unless primary, a title,
    [Result.results] is the subsequence, in pod order, of the pods whose
    primary flag is true or whose title is exactly "Result".  For a Pod
    without the [@primary] attribute, [primary] is false and does not
    raise. *)
Theorem Result_results_selected :
  (forall (self : view) (pods : pyobj) (pit : iterator) (ds : list dict),
      Result_pods self = ret pods ->
      py_iter pods = ret pit ->
      iter_list pit = ret (map pod_elem ds) ->
      Forall readable ds ->
      exists it : iterator,
        Result_results self = ret (OIter it)
        /\ iter_list it = ret (map pod_elem (filter selected ds)))
  /\ (forall d : dict,
        dict_lookup "@primary" d = None ->
        Pod_primary (View Pod d) = ret (OBool false)).
Proof.
  split; [ | exact Pod_primary_absent].
  intros self pods pit ds Hpods Hpit Hlist Hread.
  exists (gen_filter is_result_pod pit). split.
  - unfold Result_results. rewrite Hpods. cbn [bind ret]. now rewrite Hpit.
  - set (f := fun e : pyelem =>
                match e with
                | EView v => selected (view_doc v)
                | ERaw _ => false
                end).
    rewrite (gen_filter_list is_result_pod f pit _ Hlist).
    + f_equal. clear. induction ds as [ | d ds IH]; [reflexivity | ].
      cbn [map filter]. unfold f at 1. cbn [pod_elem view_doc].
      destruct (selected d); cbn [map]; now rewrite IH.
    + clear - Hread. induction Hread as [ | d ds Hd _ IH]; constructor.
      * now apply is_result_pod_selected.
      * exact IH.
Qed.

(** ** Assumption.text *)

Lemma str_find_first (sub s : string) (i : nat) :
  str_find sub s = Some i ->
  prefix sub (str_drop i s) = true
  /\ forall j, j < i -> prefix sub (str_drop j s) = false.
Proof.
  revert i. induction s as [ | c s IH]; intros i H.
  - cbn [str_find] in H. destruct (prefix sub "") eqn:Hp; [ | discriminate].
    injection H as <-. split; [exact Hp | lia].
  - cbn [str_find] in H. destruct (prefix sub (String c s)) eqn:Hp.
    + injection H as <-. split; [exact Hp | lia].
    + destruct (str_find sub s) as [k | ]; [ | discriminate].
      injection H as <-. destruct (IH k eq_refl) as [Hk Hlt]. split.
      * exact Hk.
      * intros [ | j] Hj; [exact Hp | ]. apply Hlt. lia.
Qed.

Lemma str_take_through_dot (s : string) (i : nat) :
  prefix ". " (str_drop i s) = true ->
  str_take (i + 1) s = str_take i s ++ ".".
Proof.
  revert s. induction i as [ | i IH]; intros s H.
  - destruct s as [ | c s]; [discriminate | ].
    cbn [str_drop prefix] in H.
    destruct (ascii_dec "." c) as [E | E]; [ | discriminate].
    subst c. reflexivity.
  - destruct s as [ | c s]; [discriminate | ].
    cbn [str_drop] in H. cbn [Nat.add str_take append]. now rewrite (IH s H).
Qed.

(** C6.  An Assumption with a template and a description renders the
    template with the description at [${desc1}] and then, when it has a
    word, with the word at [${word}]; without a word that step is
    skipped.  When the rendered string contains ". ", [text] is its
    prefix up to and including the full stop of the first ". ", that
    is, its first [i + 1] characters for the first index [i] of ". ". *)
Theorem Assumption_text_first_sentence (d : dict) (tpl desc rendered : string)
    (i : nat) :
  find_field d "template" = Some (VStr tpl) ->
  find_field d "description" = Some (VStr desc) ->
  (exists w, find_field d "word" = Some (VStr w)
             /\ rendered = str_replace "${word}" w (str_replace "${desc1}" desc tpl))
  \/ (find_field d "word" = None
      /\ rendered = str_replace "${desc1}" desc tpl) ->
  str_find ". " rendered = Some i ->
  Assumption_text (View Assumption d) = ret (OVal (VStr (str_take (i + 1) rendered)))
  /\ str_take (i + 1) rendered = str_take i rendered ++ "."
  /\ forall j, j < i -> prefix ". " (str_drop j rendered) = false.
Proof.
  intros Ht Hd Hw Hi.
  destruct (str_find_first _ _ _ Hi) as [Hat Hbefore].
  split; [ | split; [now apply str_take_through_dot | exact Hbefore]].
  unfold Assumption_text.
  rewrite (getattr_plain_field Assumption d "template" _ eq_refl Ht).
  cbn [bind ret VStr].
  rewrite (getattr_plain_field Assumption d "description" _ eq_refl Hd).
  cbn [bind ret VStr].
  destruct Hw as [[w [Hw ->]] | [Hw ->]].
  - rewrite (getattr_plain_field Assumption d "word" _ eq_refl Hw).
    cbn [bind ret VStr]. unfold str_index. rewrite Hi. reflexivity.
  - rewrite (getattr_missing Assumption d "word" Hw).
    cbn [bind raise]. unfold str_index. rewrite Hi. reflexivity.
Qed.

(** ** Result.details *)

(** [details] reads the field [plainText] of each pod itself; a pod that
    has a title and subpods but no such field makes it raise, and the
    failed property lookup ends in [__getattr__("details")]. *)
Lemma Result_details_needs_plainText (d pd : dict) (v t : value)
    (rest : list item) :
  find_field d "pod" = Some v ->
  always_iterable v = IDict pd :: rest ->
  dict_lookup "error" pd = None ->
  find_field pd "title" = Some t ->
  find_field pd "plainText" = None ->
  find_field d "details" = None ->
  Result_details (View Result d) = raise (AttributeError "details").
Proof.
  intros Hpod Hit Herr Htitle Hplain Hdet.
  unfold Result_details, Result_pods.
  rewrite (getattr_wraps _ _ _ _ wraps_pod), Hpod.
  cbn [property bind ret py_iter]. unfold from_doc. rewrite Hit.
  cbn [map details_loop]. fold (VDict pd).
  rewrite (construct_no_error Pod pd Herr).
  cbn [bind ret details_step].
  rewrite (getattr_plain_field Pod pd "title" t eq_refl Htitle).
  rewrite (getattr_missing Pod pd "plainText" Hplain).
  cbn [bind raise is_AttributeError].
  now apply getattr_missing.
Qed.

(** * Further properties of the views *)

(** ** What construction guarantees *)

Lemma handle_error_passes (d : dict) :
  _handle_error d = ret tt -> dict_lookup "error" d = None.
Proof.
  unfold _handle_error, dict_mem.
  destruct (dict_lookup "error" d) as [err | ]; [ | reflexivity].
  cbn [negb]. destruct (error_field "code" d) as [e | code]; [discriminate | ].
  cbn [bind]. destruct (error_field "msg" d) as [e | msg]; discriminate.
Qed.

Lemma handle_error_raises (d : dict) (err : value) :
  dict_lookup "error" d = Some err -> exists e, _handle_error d = raise e.
Proof.
  intros H. unfold _handle_error. rewrite (dict_mem_true _ _ _ H). cbn [negb].
  destruct (error_field "code" d) as [e | code]; [now exists e | ].
  cbn [bind]. destruct (error_field "msg" d) as [e | msg]; [now exists e | ].
  eexists. reflexivity.
Qed.

Lemma construct_returns (cls : kind) (x : value) (v : view) :
  construct cls x = ret v ->
  view_kind v = cls
  /\ dict_init x = ret (view_doc v)
  /\ (has_error_handler cls = true -> dict_lookup "error" (view_doc v) = None).
Proof.
  unfold construct, new_from_dict.
  destruct (dict_init x) as [e | d]; [discriminate | ]. cbn [bind].
  destruct (has_error_handler cls).
  - destruct (_handle_error d) as [e | []] eqn:He; [discriminate | ].
    cbn [bind]. intros H. injection H as <-.
    repeat split. intros _. now apply handle_error_passes.
  - intros H. injection H as <-. repeat split. discriminate.
Qed.

Lemma In_from_doc (cls : kind) (doc : value) (v : view) :
  In (ret (EView v)) (from_doc cls doc) ->
  exists i, In i (always_iterable doc) /\ construct cls (One i) = ret v.
Proof.
  unfold from_doc. intros H. apply in_map_iff in H.
  destruct H as [i [Hi Hin]]. exists i. split; [exact Hin | ].
  destruct (construct cls (One i)) as [e | v']; [discriminate | ].
  cbn [bind ret] in Hi. now injection Hi as ->.
Qed.

(** X1.  Whatever a Result is built from, and whatever document the
    pods come from, a Result that [Result.__init__] returns and a Pod
    that [Pod.from_doc] hands out never has the key [error], and it is
    of the class asked for. *)
Theorem constructed_views_are_error_free :
  (forall (stream : string) (v : view),
      Result_init stream = ret v ->
      view_kind v = Result /\ dict_lookup "error" (view_doc v) = None)
  /\ (forall (doc : value) (v : view),
        In (ret (EView v)) (from_doc Pod doc) ->
        view_kind v = Pod /\ dict_lookup "error" (view_doc v) = None).
Proof.
  split.
  - intros stream v H. unfold Result_init in H.
    destruct (xmltodict_parse stream) as [e | top]; [discriminate | ].
    cbn [bind] in H.
    destruct (dict_getitem "queryresult" top) as [e | doc]; [discriminate | ].
    cbn [bind] in H. destruct (construct_returns _ _ _ H) as (Hk & _ & He).
    split; [exact Hk | now apply He].
  - intros doc v H. destruct (In_from_doc _ _ _ H) as [i [_ Hc]].
    destruct (construct_returns _ _ _ Hc) as (Hk & _ & He).
    split; [exact Hk | now apply He].
Qed.

(** X2.  With the key [error] present, building a Pod or a Result never
    succeeds, whatever the key holds: a value that is no mapping gives
    [TypeError], a mapping without [code] gives [KeyError('code')], one
    with [code] and without [msg] gives [KeyError('msg')]. *)
Theorem error_key_always_fails (cls : kind) (d : dict) (err : value) :
  has_error_handler cls = true ->
  dict_lookup "error" d = Some err ->
  (exists e, construct cls (VDict d) = raise e)
  /\ ((forall m, err <> VDict m) -> construct cls (VDict d) = raise TypeError)
  /\ (forall m, err = VDict m -> dict_lookup "code" m = None ->
                construct cls (VDict d) = raise (KeyError "code"))
  /\ (forall m c, err = VDict m -> dict_lookup "code" m = Some c ->
                  dict_lookup "msg" m = None ->
                  construct cls (VDict d) = raise (KeyError "msg")).
Proof.
  intros Hcls Herr.
  assert (Hc : construct cls (VDict d) = (_ <- _handle_error d ;; ret (View cls d))).
  { unfold construct, new_from_dict. cbn [dict_init VDict dict_of_item bind ret].
    now rewrite Hcls. }
  rewrite Hc. split; [ | split; [ | split]].
  - destruct (handle_error_raises _ _ Herr) as [e He]. exists e. now rewrite He.
  - intros Hno. unfold _handle_error. rewrite (dict_mem_true _ _ _ Herr).
    cbn [negb]. unfold error_field, dict_getitem. rewrite Herr. cbn [bind ret].
    destruct err as [[ | s | m] | l]; try reflexivity.
    now destruct (Hno m).
  - intros m -> Hcode. unfold _handle_error. rewrite (dict_mem_true _ _ _ Herr).
    cbn [negb]. unfold error_field, dict_getitem. rewrite Herr.
    cbn [bind ret VDict]. now rewrite Hcode.
  - intros m c -> Hcode Hmsg. unfold _handle_error.
    rewrite (dict_mem_true _ _ _ Herr).
    cbn [negb]. unfold error_field, dict_getitem. rewrite Herr.
    cbn [bind ret VDict]. rewrite Hcode. cbn [bind ret]. now rewrite Hmsg.
Qed.

(** ** Errors inside pods *)

Lemma iter_list_stops (good : list pyelem) (e : exn) (rest : iterator) :
  iter_list (map inr good ++ inl e :: rest)%list = raise e.
Proof.
  induction good as [ | x good IH]; [reflexivity | ].
  cbn [map app iter_list]. now rewrite IH.
Qed.

Lemma from_doc_error_pod (v : value) (goods : list dict) (pd err : dict)
    (rest : list item) (code msg : string) :
  always_iterable v = (map IDict goods ++ IDict pd :: rest)%list ->
  Forall (fun g => dict_lookup "error" g = None) goods ->
  dict_lookup "error" pd = Some (VDict err) ->
  dict_lookup "code" err = Some (VStr code) ->
  dict_lookup "msg" err = Some (VStr msg) ->
  from_doc Pod v
  = (map inr (map pod_elem goods)
     ++ inl (Exception ("Error " ++ code ++ ": " ++ msg))
     :: from_doc Pod (Many rest))%list.
Proof.
  intros Hit Hgood He Hc Hm. unfold from_doc. rewrite Hit.
  rewrite map_app. cbn [map always_iterable]. f_equal.
  - clear - Hgood. induction Hgood as [ | g goods Hg _ IH]; [reflexivity | ].
    cbn [map]. fold (VDict g). rewrite (construct_no_error Pod g Hg).
    cbn [bind ret]. now rewrite IH.
  - f_equal. fold (VDict pd). unfold construct, new_from_dict.
    cbn [dict_init VDict dict_of_item bind ret has_error_handler].
    now rewrite (handle_error_present _ _ _ _ He Hc Hm).
Qed.

(** X3.  The error block of a pod is found when the pod is reached, not
    when the Result is built: over a response without a top-level error
    whose pods are sound up to one that carries an error block, the
    Result is built and [pods] is handed out, iterating the Result
    yields the pods before the faulty one and then raises its
    ["Error <code>: <msg>"], and [len] raises the same. *)
Theorem pod_error_surfaces_on_iteration (d : dict) (v : value)
    (goods : list dict) (pd err : dict) (rest : list item) (code msg : string) :
  dict_lookup "error" d = None ->
  find_field d "pod" = Some v ->
  always_iterable v = (map IDict goods ++ IDict pd :: rest)%list ->
  Forall (fun g => dict_lookup "error" g = None) goods ->
  dict_lookup "error" pd = Some (VDict err) ->
  dict_lookup "code" err = Some (VStr code) ->
  dict_lookup "msg" err = Some (VStr msg) ->
  construct Result (VDict d) = ret (View Result d)
  /\ (exists it : iterator,
        Result_iter (View Result d) = ret it
        /\ yielded it = map pod_elem goods
        /\ iter_list it = raise (Exception ("Error " ++ code ++ ": " ++ msg)))
  /\ Result_len (View Result d)
     = raise (Exception ("Error " ++ code ++ ": " ++ msg)).
Proof.
  intros Htop Hpod Hit Hgood He Hc Hm.
  split; [now apply construct_no_error | ].
  pose proof (from_doc_error_pod _ _ _ _ _ _ _ Hit Hgood He Hc Hm) as Hfd.
  assert (Hinfo : exists tail,
             Result_info (View Result d)
             = ret (OIter (map inr (map pod_elem goods)
                           ++ inl (Exception ("Error " ++ code ++ ": " ++ msg))
                           :: tail)%list)).
  { eexists. unfold Result_info, Result_pods.
    rewrite (getattr_wraps _ _ _ _ wraps_pod), Hpod.
    unfold Result_assumptions, Result_warnings.
    cbn [property bind ret view_doc chain py_iter]. rewrite Hfd.
    rewrite <- app_assoc. cbn [app]. reflexivity. }
  destruct Hinfo as [tail Hinfo]. split.
  - eexists. split; [unfold Result_iter; rewrite Hinfo; reflexivity | ].
    split; [ | apply iter_list_stops].
    clear. induction goods as [ | g goods IH]; [reflexivity | ].
    cbn [map app yielded]. now rewrite IH.
  - unfold Result_len. rewrite Hinfo. cbn [bind ret py_iter].
    now rewrite iter_list_stops.
Qed.

(** X4.  [len(result)] counts what iterating the Result yields: when
    [iter(result)] gives an iterator, [len] is the number of its
    elements, and [len] raises whatever running the iterator raises. *)
Theorem Result_len_counts_iteration (self : view) (it : iterator) :
  Result_iter self = ret it ->
  Result_len self = (xs <- iter_list it ;; ret (List.length xs)).
Proof.
  unfold Result_iter, Result_len.
  destruct (Result_info self) as [e | info]; [discriminate | ].
  cbn [bind]. destruct info; try discriminate.
  intros H. injection H as ->. reflexivity.
Qed.

(** X5.  [Result.assumptions] wraps the container element itself: when
    [assumptions] holds one mapping, the iterable has exactly one
    Assumption, which is that mapping, however many [assumption]
    children it has; those children stay plain values. *)
Theorem assumptions_wrap_the_container (d c : dict) :
  dict_lookup "assumptions" d = Some (VDict c) ->
  Result_assumptions (View Result d)
    = ret (OIter [ret (EView (View Assumption c))])
  /\ (forall v, find_field c "assumption" = Some v ->
                getattr (View Assumption c) "assumption" = ret (OVal v)).
Proof.
  intros H. split.
  - unfold Result_assumptions, dict_get. cbn [view_doc]. rewrite H.
    cbn [property]. now rewrite (from_doc_singleton Assumption c).
  - intros v Hv. now apply getattr_plain_field.
Qed.

(** ** Pod.texts *)

Lemma from_doc_mappings (cls : kind) (v : value) (ds : list dict) :
  always_iterable v = map IDict ds ->
  Forall (fun d => has_error_handler cls = true -> dict_lookup "error" d = None) ds ->
  from_doc cls v = map (fun d => ret (EView (View cls d))) ds.
Proof.
  intros Hit Hall. unfold from_doc. rewrite Hit. rewrite map_map. clear Hit.
  induction Hall as [ | d ds Hd _ IH]; [reflexivity | ].
  cbn [map]. rewrite IH. f_equal. fold (VDict d).
  destruct (has_error_handler cls) eqn:Hcls.
  - rewrite (construct_no_error _ _ (Hd eq_refl)). reflexivity.
  - rewrite (construct_plain _ _ Hcls). reflexivity.
Qed.

Lemma from_doc_subpods (v : value) (sds : list dict) :
  always_iterable v = map IDict sds ->
  from_doc Subpod v = map (fun d => ret (EView (View Subpod d))) sds.
Proof.
  intros Hit. apply from_doc_mappings; [exact Hit | ].
  apply Forall_forall. intros d _ H. discriminate H.
Qed.

Lemma texts_loop_plain (sds : list dict) (xs : list value) :
  Forall2 (fun sd x => find_field sd "plaintext" = Some x) sds xs ->
  texts_loop (map (fun d => ret (EView (View Subpod d))) sds)
  = ret (map OVal xs).
Proof.
  induction 1 as [ | sd x sds xs Hx _ IH]; [reflexivity | ].
  cbn [map texts_loop elem_getattr ret].
  rewrite (getattr_plain_field Subpod sd "plaintext" x eq_refl Hx).
  cbn [bind ret]. now rewrite IH.
Qed.

Lemma texts_loop_missing (sds : list dict) :
  Exists (fun sd => find_field sd "plaintext" = None) sds ->
  texts_loop (map (fun d => ret (EView (View Subpod d))) sds)
  = raise (AttributeError "plaintext").
Proof.
  induction sds as [ | sd sds IH]; intros H; [inversion H | ].
  cbn [map texts_loop elem_getattr ret].
  destruct (find_field sd "plaintext") as [x | ] eqn:Hx.
  - rewrite (getattr_plain_field Subpod sd "plaintext" x eq_refl Hx).
    cbn [bind ret]. rewrite IH; [reflexivity | ].
    inversion H as [? ? Hnow | ? ? Hlater]; subst; [congruence | exact Hlater].
  - now rewrite (getattr_missing Subpod sd "plaintext" Hx).
Qed.

(** X7.  For a Pod whose [subpod] field holds mappings, [Pod.texts] is
    the list of their [plaintext] fields, one per subpod and in subpod
    order, provided each subpod has one; if any subpod lacks it (and the
    pod has no field called [texts]), [Pod.texts] raises
    [AttributeError] instead of a shorter list. *)
Theorem Pod_texts_in_order (d : dict) (v : value) (sds : list dict) :
  find_field d "subpod" = Some v ->
  always_iterable v = map IDict sds ->
  (forall xs : list value,
      Forall2 (fun sd x => find_field sd "plaintext" = Some x) sds xs ->
      Pod_texts (View Pod d) = ret (inl (map OVal xs))
      /\ List.length xs = List.length sds)
  /\ (Exists (fun sd => find_field sd "plaintext" = None) sds ->
      find_field d "texts" = None ->
      Pod_texts (View Pod d) = raise (AttributeError "texts")).
Proof.
  intros Hsub Hit.
  assert (Hbody : forall r,
             texts_loop (map (fun d => ret (EView (View Subpod d))) sds) = r ->
             (subpod <- getattr (View Pod d) "subpod" ;;
              it <- py_iter subpod ;; texts_loop it) = r).
  { intros r Hr. rewrite (getattr_wraps _ _ _ _ wraps_subpod), Hsub.
    cbn [bind ret py_iter]. now rewrite (from_doc_subpods _ _ Hit). }
  split.
  - intros xs Hxs. split.
    + unfold Pod_texts. now rewrite (Hbody _ (texts_loop_plain _ _ Hxs)).
    + symmetry. exact (Forall2_length Hxs).
  - intros Hmiss Htexts. unfold Pod_texts.
    rewrite (Hbody _ (texts_loop_missing _ Hmiss)).
    cbn [raise is_AttributeError].
    now rewrite (getattr_missing Pod d "texts" Htexts).
Qed.

(** X8.  When [Pod.texts] is the list that its own body computes from
    the subpods (and not a field named [texts] that the attribute
    fallback hands back), [Pod.text] is its head: for a non-empty list
    [text] is the first entry, for the empty list [text] raises
    [StopIteration]. *)
Theorem Pod_text_heads_texts (self : view) :
  (forall (x : pyobj) (xs : list pyobj),
      Pod_texts self = ret (inl (x :: xs)) -> Pod_text self = ret x)
  /\ (Pod_texts self = ret (inl []) -> Pod_text self = raise StopIteration).
Proof.
  assert (Hinv : forall l,
             Pod_texts self = ret (inl l) ->
             exists sub it, getattr self "subpod" = ret sub
                            /\ py_iter sub = ret it /\ texts_loop it = ret l).
  { intros l H. unfold Pod_texts in H.
    destruct (getattr self "subpod") as [e | sub] eqn:Hsub.
    - cbn [bind] in H. destruct (is_AttributeError e); [ | discriminate].
      destruct (getattr self "texts"); discriminate.
    - cbn [bind] in H. destruct (py_iter sub) as [e | it] eqn:Hit.
      + cbn [bind] in H. destruct (is_AttributeError e); [ | discriminate].
        destruct (getattr self "texts"); discriminate.
      + cbn [bind] in H. exists sub, it.
        split; [reflexivity | split; [exact Hit | ]].
        destruct (texts_loop it) as [e | l'].
        * destruct (is_AttributeError e); [ | discriminate].
          destruct (getattr self "texts"); discriminate.
        * unfold ret in H. injection H as H. subst l'. reflexivity. }
  split.
  - intros x xs H. destruct (Hinv _ H) as (sub & it & Hsub & Hit & Hloop).
    unfold Pod_text. rewrite Hsub. cbn [bind ret]. rewrite Hit. cbn [bind ret].
    destruct it as [ | [e | sp] rest]; try discriminate.
    cbn [texts_loop] in Hloop. cbn [py_next bind].
    destruct (elem_getattr sp "plaintext") as [e | x']; [discriminate | ].
    cbn [bind] in Hloop.
    destruct (texts_loop rest) as [e | xs']; [discriminate | ].
    cbn [bind ret] in Hloop. injection Hloop as Hx _. subst x'.
    reflexivity.
  - intros H. destruct (Hinv _ H) as (sub & it & Hsub & Hit & Hloop).
    unfold Pod_text. rewrite Hsub. cbn [bind ret]. rewrite Hit. cbn [bind ret].
    destruct it as [ | [e | sp] rest]; [reflexivity | discriminate | ].
    cbn [texts_loop] in Hloop.
    destruct (elem_getattr sp "plaintext") as [e | x']; [discriminate | ].
    cbn [bind] in Hloop.
    destruct (texts_loop rest) as [e | xs']; discriminate.
Qed.

(** ** Result.details *)

Lemma hkey_eqb_eq (a b : hkey) : hkey_eqb a b = true <-> a = b.
Proof.
  destruct a as [ | s], b as [ | t]; cbn [hkey_eqb];
    try (split; [discriminate | discriminate]); try tauto.
  rewrite String.eqb_eq. split; [now intros -> | now intros [= ->]].
Qed.

Lemma hkey_lookup_set (k k' : hkey) (x : value) (m : list (hkey * value)) :
  hkey_lookup k (dict_set hkey_eqb k' x m)
  = if hkey_eqb k k' then Some x else hkey_lookup k m.
Proof.
  induction m as [ | [k0 v0] m IH]; cbn [dict_set hkey_lookup].
  - destruct (hkey_eqb k k'); reflexivity.
  - destruct (hkey_eqb k' k0) eqn:E0; cbn [hkey_lookup].
    + apply hkey_eqb_eq in E0. subst k0.
      destruct (hkey_eqb k k'); reflexivity.
    + rewrite IH. destruct (hkey_eqb k k0) eqn:E1; [ | reflexivity].
      apply hkey_eqb_eq in E1. subst k0.
      destruct (hkey_eqb k k') eqn:E2; [ | reflexivity].
      apply hkey_eqb_eq in E2. subst k'.
      assert (hkey_eqb k k = true) by now apply hkey_eqb_eq. congruence.
Qed.

Lemma details_loop_pods (pds : list dict) :
  Forall detailed pds ->
  forall acc : list (hkey * value),
  exists m,
    details_loop acc (map (fun p => ret (EView (View Pod p))) pds) = ret m
    /\ forall t, hkey_lookup (KStr t) m
                 = match last_text t pds with
                   | Some x => Some x
                   | None => hkey_lookup (KStr t) acc
                   end.
Proof.
  induction 1 as [ | p pds (_ & [t0 Ht] & [x0 Hx]) _ IH]; intros acc.
  - exists acc. split; reflexivity.
  - cbn [map details_loop details_step ret].
    rewrite (getattr_plain_field Pod p "title" _ eq_refl Ht).
    cbn [bind ret].
    rewrite (getattr_plain_field Pod p "plainText" _ eq_refl Hx).
    cbn [bind ret VStr hash_key].
    destruct (IH (dict_set hkey_eqb (KStr t0) x0 acc)) as [m [Hm Hlook]].
    exists m. split; [exact Hm | ].
    intros t. rewrite Hlook. cbn [last_text].
    destruct (last_text t pds); [reflexivity | ].
    rewrite Ht. cbn [VStr]. rewrite hkey_lookup_set. cbn [hkey_eqb].
    destruct (String.eqb t t0); [now rewrite Hx | reflexivity].
Qed.

(** X9.  When every pod does have a field [plainText] (and a string for
    a title), [Result.details] is a mapping in which each title leads to
    the [plainText] of the last pod with that title, and a string that
    is no pod's title leads to nothing. *)
Theorem details_last_write_wins (d : dict) (v : value) (pds : list dict) :
  find_field d "pod" = Some v ->
  always_iterable v = map IDict pds ->
  Forall detailed pds ->
  exists m : list (hkey * value),
    Result_details (View Result d) = ret (ODict m)
    /\ forall t, hkey_lookup (KStr t) m = last_text t pds.
Proof.
  intros Hpod Hit Hall.
  assert (Hfd : from_doc Pod v = map (fun p => ret (EView (View Pod p))) pds).
  { apply from_doc_mappings; [exact Hit | ].
    eapply Forall_impl; [ | exact Hall]. intros p (Herr & _) _. exact Herr. }
  destruct (details_loop_pods pds Hall []) as [m [Hm Hlook]].
  exists m. split.
  - unfold Result_details, Result_pods.
    rewrite (getattr_wraps _ _ _ _ wraps_pod), Hpod.
    cbn [property bind ret py_iter]. rewrite Hfd, Hm. reflexivity.
  - intros t. rewrite Hlook. now destruct (last_text t pds).
Qed.

(** ** Assumption.text, continued *)

Lemma Assumption_text_rendered (d : dict) (tpl desc : string) :
  find_field d "template" = Some (VStr tpl) ->
  find_field d "description" = Some (VStr desc) ->
  (forall w, find_field d "word" <> Some (VStr w)) ->
  Assumption_text (View Assumption d)
  = (i <- str_index ". " (str_replace "${desc1}" desc tpl) ;;
     ret (OVal (VStr (str_take (i + 1) (str_replace "${desc1}" desc tpl))))).
Proof.
  intros Ht Hd Hw.
  assert (Hword : forall text,
             match (word <- getattr (View Assumption d) "word" ;;
                    match word with
                    | OVal (One (IStr w)) => ret (str_replace "${word}" w text)
                    | _ => raise TypeError
                    end) with
             | inr replaced => replaced
             | inl _ => text
             end = text).
  { intros text0. destruct (find_field d "word") as [w | ] eqn:E.
    - rewrite (getattr_plain_field Assumption d "word" w eq_refl E).
      cbn [bind ret]. destruct w as [[ | s | m] | l]; try reflexivity.
      now destruct (Hw s).
    - now rewrite (getattr_missing Assumption d "word" E). }
  unfold Assumption_text.
  rewrite (getattr_plain_field Assumption d "template" _ eq_refl Ht).
  cbn [bind ret VStr].
  rewrite (getattr_plain_field Assumption d "description" _ eq_refl Hd).
  cbn [bind ret VStr]. rewrite Hword.
  unfold str_index.
  destruct (str_find ". " (str_replace "${desc1}" desc tpl)); reflexivity.
Qed.

(** X10.  An Assumption with a template and a description whose
    rendered string has no ". " in it has no [text]: it raises
    [ValueError], also when the string ends in a full stop. *)
Theorem Assumption_text_needs_full_stop (d : dict) (tpl desc : string) :
  find_field d "template" = Some (VStr tpl) ->
  find_field d "description" = Some (VStr desc) ->
  find_field d "word" = None ->
  str_find ". " (str_replace "${desc1}" desc tpl) = None ->
  Assumption_text (View Assumption d) = raise ValueError.
Proof.
  intros Ht Hd Hw Hno.
  rewrite (Assumption_text_rendered d tpl desc Ht Hd).
  - unfold str_index. now rewrite Hno.
  - intros w. rewrite Hw. discriminate.
Qed.

(** X11.  A word that is present but is no string ([None], a mapping, a
    list) does not make [text] fail: the substitution is skipped, as for
    an absent word. *)
Theorem Assumption_text_skips_bad_word (d : dict) (tpl desc : string)
    (w : value) (i : nat) :
  find_field d "template" = Some (VStr tpl) ->
  find_field d "description" = Some (VStr desc) ->
  find_field d "word" = Some w ->
  (forall s, w <> VStr s) ->
  str_find ". " (str_replace "${desc1}" desc tpl) = Some i ->
  Assumption_text (View Assumption d)
  = ret (OVal (VStr (str_take (i + 1) (str_replace "${desc1}" desc tpl)))).
Proof.
  intros Ht Hd Hw Hbad Hi.
  rewrite (Assumption_text_rendered d tpl desc Ht Hd).
  - unfold str_index. now rewrite Hi.
  - intros s. rewrite Hw. intros H. injection H as H. now destruct (Hbad s).
Qed.

(** X12.  Without a template, or with a template that is a string and
    without a description, [text] is what [__getattr__("text")] gives:
    the field [text] of the mapping when there is one, otherwise
    [AttributeError('text')]; the name of the field that was missing is
    not reported. *)
Theorem Assumption_text_falls_back (d : dict) :
  (find_field d "template" = None
   \/ (exists tpl, find_field d "template" = Some (VStr tpl))
      /\ find_field d "description" = None) ->
  Assumption_text (View Assumption d)
  = match find_field d "text" with
    | Some x => ret (OVal x)
    | None => raise (AttributeError "text")
    end.
Proof.
  intros H. unfold Assumption_text.
  assert (Hfb : getattr (View Assumption d) "text"
                = match find_field d "text" with
                  | Some x => ret (OVal x)
                  | None => raise (AttributeError "text")
                  end).
  { destruct (find_field d "text") as [x | ] eqn:E.
    - now apply getattr_plain_field.
    - now apply getattr_missing. }
  destruct H as [Ht | [[tpl Ht] Hd]].
  - rewrite (getattr_missing Assumption d "template" Ht). exact Hfb.
  - rewrite (getattr_plain_field Assumption d "template" _ eq_refl Ht).
    cbn [bind ret VStr].
    rewrite (getattr_missing Assumption d "description" Hd). exact Hfb.
Qed.

(** ** Result.results, continued *)

Lemma gen_filter_yields (cond : pyelem -> result bool) (it : iterator) :
  exists n : nat,
    yielded (gen_filter cond it) = filter (accepts cond) (firstn n (yielded it)).
Proof.
  induction it as [ | [e | x] it [n IH]].
  - exists 0. reflexivity.
  - exists 0. reflexivity.
  - cbn [gen_filter yielded].
    destruct (cond x) as [e | [ | ]] eqn:Hc.
    + exists 0. reflexivity.
    + exists (S n). cbn [firstn filter]. unfold accepts at 1. rewrite Hc.
      cbn [yielded]. now rewrite IH.
    + exists (S n). cbn [firstn filter]. unfold accepts at 1. rewrite Hc.
      exact IH.
Qed.

(** X13.  Whatever raises on the way, [Result.results] hands out only
    pods that [Result.pods] hands out, in the same order, and only those
    for which [pod.primary or pod.title == 'Result'] holds: what it
    yields is that filter of an initial stretch of the pods. *)
Theorem Result_results_yields_pods (self : view) (pods : pyobj)
    (pit it : iterator) :
  Result_pods self = ret pods ->
  py_iter pods = ret pit ->
  Result_results self = ret (OIter it) ->
  exists n : nat,
    yielded it = filter (accepts is_result_pod) (firstn n (yielded pit)).
Proof.
  intros Hpods Hpit Hres. unfold Result_results in Hres.
  rewrite Hpods in Hres. cbn [bind ret] in Hres. rewrite Hpit in Hres.
  cbn [bind ret property] in Hres. injection Hres as <-.
  apply gen_filter_yields.
Qed.

(** ** Client.query *)

Lemma query_exchange (self : client) (input : string)
    (params kwargs : list (string * string)) (w : world) :
  query self input params kwargs w
  = (query_response
       (fst (session_get (fst (session_used self w)) (url self)
                         (query_data self input params kwargs)
                         (snd (session_used self w)))),
     Client (app_id self) (Some (fst (session_used self w))) (url self),
     snd (session_get (fst (session_used self w)) (url self)
                      (query_data self input params kwargs)
                      (snd (session_used self w)))).
Proof.
  unfold query, session_used. destruct self as [a [s | ] u]; cbn [client_session].
  - cbn [app_id url fst snd].
    destruct (session_get s u (query_data (Client a (Some s) u) input params kwargs) w);
      reflexivity.
  - destruct (create_http_session w) as [s w']. cbn [app_id url fst snd].
    destruct (session_get s u (query_data (Client a None u) input params kwargs) w');
      reflexivity.
Qed.

Lemma Result_init_returns (stream : string) (v : view) :
  Result_init stream = ret v ->
  view_kind v = Result /\ dict_lookup "error" (view_doc v) = None.
Proof.
  intros H. unfold Result_init in H.
  destruct (xmltodict_parse stream) as [e | top]; [discriminate | ].
  cbn [bind] in H.
  destruct (dict_getitem "queryresult" top) as [e | doc]; [discriminate | ].
  cbn [bind] in H. destruct (construct_returns _ _ _ H) as (Hk & _ & He).
  split; [exact Hk | now apply He].
Qed.

(** X14.  When the response declares a content type other than exactly
    [text/xml;charset=utf-8], [query] ends in the failed assertion,
    whatever the body holds; the request went to the client's URL with
    the caller's [params] first, then [input] and [appid], then the
    keyword parameters, and the session stays on the client. *)
Theorem query_asserts_content_type (self : client) (input : string)
    (params kwargs : list (string * string)) (w w' : world)
    (resp : response) (ct : string) :
  session_get (fst (session_used self w)) (url self)
              (params ++ [("input", input); ("appid", app_id self)] ++ kwargs)%list
              (snd (session_used self w))
  = (ret resp, w') ->
  content_type resp = Some ct ->
  ct <> "text/xml;charset=utf-8" ->
  query self input params kwargs w
  = (AssertionError,
     Client (app_id self) (Some (fst (session_used self w))) (url self),
     w').
Proof.
  intros Hget Hct Hne. rewrite query_exchange. unfold query_data.
  rewrite Hget. cbn [fst snd query_response ret]. rewrite Hct.
  destruct (String.eqb ct "text/xml;charset=utf-8") eqn:E; [ | reflexivity].
  apply String.eqb_eq in E. contradiction.
Qed.

(** X15.  A client always holds a session after [query], whatever the
    outcome; a session it already had is kept, so that a second call
    leaves the client as the first one left it; [app_id] and [url] are
    never changed. *)
Theorem query_keeps_session (self : client) (input : string)
    (params kwargs : list (string * string)) (w : world) :
  let after := snd (fst (query self input params kwargs w)) in
  client_session after <> None
  /\ app_id after = app_id self
  /\ url after = url self
  /\ (forall s, client_session self = Some s -> after = self)
  /\ (forall input' params' kwargs' w',
        snd (fst (query after input' params' kwargs' w')) = after).
Proof.
  cbn zeta. rewrite query_exchange. cbn [fst snd client_session app_id url].
  split; [discriminate | ]. split; [reflexivity | ]. split; [reflexivity | ].
  split.
  - intros s Hs. unfold session_used. rewrite Hs. cbn [fst].
    destruct self as [a s0 u]. cbn [client_session app_id url] in *.
    now rewrite Hs.
  - intros input' params' kwargs' w'. rewrite query_exchange.
    cbn [fst snd client_session app_id url session_used]. reflexivity.
Qed.

(** X16.  [query] returns a view only as a Result without an error
    block, and only after a response that declared the content type
    [text/xml;charset=utf-8] and whose text could be read. *)
Theorem query_returns_sound_result (self : client) (input : string)
    (params kwargs : list (string * string)) (w : world) (v : view) :
  fst (fst (query self input params kwargs w)) = Returned v ->
  view_kind v = Result
  /\ dict_lookup "error" (view_doc v) = None
  /\ exists (resp : response) (body : string),
       fst (session_get (fst (session_used self w)) (url self)
                        (query_data self input params kwargs)
                        (snd (session_used self w))) = ret resp
       /\ content_type resp = Some "text/xml;charset=utf-8"
       /\ text resp = ret body
       /\ Result_init body = ret v.
Proof.
  rewrite query_exchange. cbn [fst].
  destruct (fst (session_get (fst (session_used self w)) (url self)
                             (query_data self input params kwargs)
                             (snd (session_used self w)))) as [e | resp];
    [discriminate | ].
  cbn [query_response].
  destruct (content_type resp) as [ct | ] eqn:Hct; [ | discriminate].
  destruct (String.eqb ct "text/xml;charset=utf-8") eqn:E; [ | discriminate].
  apply String.eqb_eq in E. subst ct.
  destruct (text resp) as [e | body] eqn:Hbody; [discriminate | ].
  destruct (Result_init body) as [e | v'] eqn:Hinit; [discriminate | ].
  intros H. injection H as ->.
  destruct (Result_init_returns _ _ Hinit) as [Hk He].
  split; [exact Hk | ]. split; [exact He | ].
  exists resp, body. repeat split; assumption.
Qed.

(** ** The sentence that Assumption.text returns *)

Lemma prefix_take (p s : string) (n : nat) :
  prefix p (str_take n s) = true -> prefix p s = true.
Proof.
  revert s n. induction p as [ | a p IH]; intros s n H.
  - now destruct s.
  - destruct n as [ | n], s as [ | c s]; try discriminate.
    cbn [str_take prefix] in *. destruct (ascii_dec a c); [ | discriminate].
    now apply (IH s n).
Qed.

Lemma prefix_length (p s : string) :
  prefix p s = true -> String.length p <= String.length s.
Proof.
  revert s. induction p as [ | a p IH]; intros s H; cbn [String.length]; [lia | ].
  destruct s as [ | c s]; [discriminate | ].
  cbn [prefix] in H. destruct (ascii_dec a c); [ | discriminate].
  specialize (IH s H). cbn [String.length]. lia.
Qed.

Lemma str_take_length (n : nat) (s : string) :
  String.length (str_take n s) <= n.
Proof.
  revert s. induction n as [ | n IH]; intros s; [now destruct s | ].
  destruct s as [ | c s]; cbn [str_take String.length]; [lia | ].
  specialize (IH s). lia.
Qed.

Lemma str_find_short (p s : string) :
  String.length s < String.length p -> str_find p s = None.
Proof.
  induction s as [ | c s IH]; intros H; cbn [str_find].
  - destruct (prefix p "") eqn:E; [ | reflexivity].
    apply prefix_length in E. lia.
  - destruct (prefix p (String c s)) eqn:E.
    + apply prefix_length in E. lia.
    + rewrite IH; [reflexivity | cbn [String.length] in H; lia].
Qed.

Lemma str_find_take (p s : string) (i : nat) :
  p <> EmptyString ->
  str_find p s = Some i ->
  str_find p (str_take (i + (String.length p - 1)) s) = None.
Proof.
  intros Hp. assert (Hlen : 0 < String.length p)
    by (destruct p; [contradiction | cbn [String.length]; lia]).
  revert i. induction s as [ | c s IH]; intros i H; cbn [str_find] in H.
  - destruct (prefix p "") eqn:E; [ | discriminate].
    apply prefix_length in E. cbn [String.length] in E. lia.
  - destruct (prefix p (String c s)) eqn:E.
    + injection H as <-. apply str_find_short.
      pose proof (str_take_length (0 + (String.length p - 1)) (String c s)). lia.
    + destruct (str_find p s) as [k | ]; [ | discriminate].
      injection H as <-. cbn [Nat.add str_take str_find].
      destruct (prefix p (String c (str_take (k + (String.length p - 1)) s)))
        eqn:E'.
      * apply (prefix_take p (String c s) (S (k + (String.length p - 1)))) in E'.
        congruence.
      * now rewrite (IH k eq_refl).
Qed.

Lemma Assumption_text_shape (d : dict) (tpl desc : string) :
  find_field d "template" = Some (VStr tpl) ->
  find_field d "description" = Some (VStr desc) ->
  exists rendered : string,
    Assumption_text (View Assumption d)
    = (i <- str_index ". " rendered ;;
       ret (OVal (VStr (str_take (i + 1) rendered)))).
Proof.
  intros Ht Hd. destruct (find_field d "word") as [[[ | w | m] | l] | ] eqn:Hw.
  2: { exists (str_replace "${word}" w (str_replace "${desc1}" desc tpl)).
       unfold Assumption_text.
       rewrite (getattr_plain_field Assumption d "template" _ eq_refl Ht).
       cbn [bind ret VStr].
       rewrite (getattr_plain_field Assumption d "description" _ eq_refl Hd).
       cbn [bind ret VStr].
       rewrite (getattr_plain_field Assumption d "word" _ eq_refl Hw).
       cbn [bind ret]. unfold str_index.
       destruct (str_find ". "
                   (str_replace "${word}" w (str_replace "${desc1}" desc tpl)));
         reflexivity. }
  all: exists (str_replace "${desc1}" desc tpl);
    apply (Assumption_text_rendered d tpl desc Ht Hd);
    intros w'; rewrite Hw; discriminate.
Qed.

(** X17.  What [Assumption.text] computes from a template and a
    description is one sentence: it ends in a full stop and has no
    ". " inside. *)
Theorem Assumption_text_one_sentence (d : dict) (tpl desc s : string) :
  find_field d "template" = Some (VStr tpl) ->
  find_field d "description" = Some (VStr desc) ->
  Assumption_text (View Assumption d) = ret (OVal (VStr s)) ->
  str_find ". " s = None /\ exists body, s = body ++ ".".
Proof.
  intros Ht Hd H. destruct (Assumption_text_shape d tpl desc Ht Hd) as [r Hr].
  rewrite Hr in H. unfold str_index in H.
  destruct (str_find ". " r) as [i | ] eqn:Hi; [ | discriminate].
  cbn [bind ret] in H. injection H as <-. split.
  - apply (str_find_take ". " r i); [discriminate | exact Hi].
  - exists (str_take i r). apply str_take_through_dot.
    now destruct (str_find_first _ _ _ Hi).
Qed.

(** ** Result.__init__ *)

(** X19.  [Result(stream)] passes on what the decoder raises; it raises
    [KeyError('queryresult')] when the decoded document has another
    root, [TypeError] when the [queryresult] element is empty, and
    [ValueError] when it holds text only. *)
Theorem Result_init_failures (stream : string) :
  (forall e, xmltodict_parse stream = raise e -> Result_init stream = raise e)
  /\ (forall top, xmltodict_parse stream = ret top ->
        (dict_lookup "queryresult" top = None ->
         Result_init stream = raise (KeyError "queryresult"))
        /\ (dict_lookup "queryresult" top = Some VNone ->
            Result_init stream = raise TypeError)
        /\ (forall c text,
              dict_lookup "queryresult" top = Some (VStr (String c text)) ->
              Result_init stream = raise ValueError)).
Proof.
  split.
  - intros e H. unfold Result_init. now rewrite H.
  - intros top H. unfold Result_init, dict_getitem. rewrite H. cbn [bind ret].
    split; [ | split].
    + intros Hq. now rewrite Hq.
    + intros Hq. now rewrite Hq.
    + intros c text Hq. now rewrite Hq.
Qed.

(** ** The decoder never runs out of fuel *)

Lemma skip_ws_length (s : string) :
  String.length (skip_ws s) <= String.length s.
Proof.
  induction s as [ | c s IH]; simpl; [lia | ].
  destruct (is_ws c); simpl; lia.
Qed.

Lemma span_digits_length (s ds tl : string) :
  span_digits s = (ds, tl) ->
  String.length s = String.length ds + String.length tl.
Proof.
  revert ds tl. induction s as [ | c s IH]; intros ds tl H; simpl in H.
  - injection H as <- <-. reflexivity.
  - destruct (is_digit c).
    + destruct (span_digits s) as [ds' tl'] eqn:E. injection H as <- <-.
      simpl. rewrite (IH ds' tl' eq_refl). reflexivity.
    + injection H as <- <-. reflexivity.
Qed.

Lemma scan_string_length (s raw tl : string) :
  scan_string s = Some (raw, tl) -> String.length tl < String.length s.
Proof.
  remember (String.length s) as n eqn:Hn.
  revert s raw tl Hn. induction n as [n IH] using lt_wf_ind.
  intros s raw tl -> H.
  destruct s as [ | c r]; [discriminate | ]. cbn [scan_string] in H.
  destruct (Ascii.eqb c "034").
  { injection H as _ <-. simpl. lia. }
  destruct (Ascii.eqb c "\").
  - destruct r as [ | e r2]; [discriminate | ].
    destruct (Ascii.eqb e "u").
    + destruct r2 as [ | h1 [ | h2 [ | h3 [ | h4 r3]]]]; try discriminate.
      destruct (is_hex h1 && is_hex h2 && is_hex h3 && is_hex h4);
        [ | discriminate].
      destruct (scan_string r3) as [[raw' tl'] | ] eqn:E; [ | discriminate].
      injection H as _ <-.
      assert (String.length tl' < String.length r3)
        by (eapply (IH (String.length r3)); [simpl; lia | reflexivity | exact E]).
      simpl. lia.
    + destruct (is_simple_escape e); [ | discriminate].
      destruct (scan_string r2) as [[raw' tl'] | ] eqn:E; [ | discriminate].
      injection H as _ <-.
      assert (String.length tl' < String.length r2)
        by (eapply (IH (String.length r2)); [simpl; lia | reflexivity | exact E]).
      simpl. lia.
  - destruct (N_of_ascii c <=? 31)%N; [discriminate | ].
    destruct (scan_string r) as [[raw' tl'] | ] eqn:E; [ | discriminate].
    injection H as _ <-.
    assert (String.length tl' < String.length r)
      by (eapply (IH (String.length r)); [simpl; lia | reflexivity | exact E]).
    simpl. lia.
Qed.

Lemma scan_int_part_length (s ip tl : string) :
  scan_int_part s = Some (ip, tl) -> String.length tl < String.length s.
Proof.
  destruct s as [ | c r]; [discriminate | ]. unfold scan_int_part.
  destruct (Ascii.eqb c "0").
  - intros H. injection H as _ <-. simpl. lia.
  - destruct (is_digit c) eqn:Hd; [ | discriminate].
    intros H. injection H as H.
    pose proof (span_digits_length (String c r) ip tl H) as Hlen.
    cbn [span_digits] in H. rewrite Hd in H.
    destruct (span_digits r) as [ds' tl']. injection H as <- <-.
    simpl in *. lia.
Qed.

Lemma scan_frac_length (s : string) :
  String.length (snd (scan_frac s)) <= String.length s.
Proof.
  unfold scan_frac. destruct s as [ | dot [ | d rest]]; [reflexivity .. | ].
  destruct (Ascii.eqb dot "." && is_digit d); [ | reflexivity].
  destruct (span_digits (String d rest)) as [ds tl] eqn:E.
  pose proof (span_digits_length _ _ _ E) as Hlen.
  cbn [snd String.length] in *. lia.
Qed.

Lemma scan_exp_length (s : string) :
  String.length (snd (scan_exp s)) <= String.length s.
Proof.
  unfold scan_exp. destruct s as [ | e rest]; [reflexivity | ].
  destruct (Ascii.eqb e "e" || Ascii.eqb e "E"); [ | reflexivity].
  set (sign := match rest with
               | String sg r =>
                   if Ascii.eqb sg "-" then (true, r)
                   else if Ascii.eqb sg "+" then (false, r) else (false, rest)
               | EmptyString => (false, rest)
               end).
  assert (Hs : String.length (snd sign) <= String.length rest).
  { subst sign. destruct rest as [ | sg r]; [reflexivity | ].
    destruct (Ascii.eqb sg "-"); [cbn [snd String.length]; lia | ].
    destruct (Ascii.eqb sg "+"); cbn [snd String.length]; lia. }
  destruct sign as [neg after_sign]. cbn [snd] in Hs.
  destruct (span_digits after_sign) as [ds tl] eqn:E.
  pose proof (span_digits_length _ _ _ E) as Hlen.
  destruct ds; cbn [snd String.length] in *; lia.
Qed.

Lemma scan_number_length (s : string) (j : json) (tl : string) :
  scan_number s = Scanned j tl -> String.length tl < String.length s.
Proof.
  unfold scan_number.
  set (sign := match s with
               | String c rest => if Ascii.eqb c "-" then (true, rest) else (false, s)
               | EmptyString => (false, s)
               end).
  assert (Hs : String.length (snd sign) <= String.length s).
  { subst sign. destruct s as [ | c rest]; [reflexivity | ].
    destruct (Ascii.eqb c "-"); cbn [snd String.length]; lia. }
  destruct sign as [neg s1]. cbn [snd] in Hs.
  destruct (scan_int_part s1) as [[ip s2] | ] eqn:Hip; [ | discriminate].
  apply scan_int_part_length in Hip.
  pose proof (scan_frac_length s2) as Hf.
  destruct (scan_frac s2) as [frac s3]. cbn [snd] in Hf.
  pose proof (scan_exp_length s3) as He.
  destruct (scan_exp s3) as [ex s4]. cbn [snd] in He.
  destruct frac, ex; try (intros H; injection H as _ <-; lia).
  destruct (exceeds_digit_limit (String.length ip)); [discriminate | ].
  intros H; injection H as _ <-; lia.
Qed.

Lemma scan_number_fuel (s : string) : scan_number s <> OutOfFuel.
Proof.
  unfold scan_number.
  destruct (match s with
            | String c rest => if Ascii.eqb c "-" then (true, rest) else (false, s)
            | EmptyString => (false, s)
            end) as [neg s1].
  destruct (scan_int_part s1) as [[ip s2] | ]; [ | discriminate].
  destruct (scan_frac s2) as [frac s3].
  destruct (scan_exp s3) as [ex s4].
  destruct frac, ex; try discriminate.
  destruct (exceeds_digit_limit (String.length ip)); discriminate.
Qed.

Lemma str_drop_prefix (p s : string) :
  prefix p s = true ->
  String.length (str_drop (String.length p) s) + String.length p = String.length s.
Proof.
  revert s. induction p as [ | a p IH]; intros s H.
  - destruct s; simpl; lia.
  - destruct s as [ | c s]; [discriminate | ].
    cbn [prefix] in H. destruct (ascii_dec a c); [ | discriminate].
    cbn [String.length str_drop]. specialize (IH s H). lia.
Qed.

Ltac drop_prefix P :=
  let Hlen := fresh "Hlen" in
  pose proof (str_drop_prefix _ _ P) as Hlen;
  simpl in Hlen |- *.

Lemma scan_progress (fuel : nat) :
  (forall depth s j tl,
      scan_once fuel depth s = Scanned j tl ->
      String.length tl < String.length s)
  /\ (forall depth acc s j tl,
        scan_elements fuel depth acc s = Scanned j tl ->
        String.length tl < String.length s)
  /\ (forall depth acc s j tl,
        scan_members fuel depth acc s = Scanned j tl ->
        String.length tl < String.length s).
Proof.
  induction fuel as [ | f (IHo & IHe & IHm)].
  { repeat split; intros; discriminate. }
  split; [ | split].
  - intros depth s j tl H. destruct s as [ | c rest]; [discriminate | ].
    cbn [scan_once] in H.
    destruct (Ascii.eqb c "034").
    { destruct (scan_string rest) as [[raw tl'] | ] eqn:E; [ | discriminate].
      injection H as _ <-. apply scan_string_length in E.
      cbn [String.length]. lia. }
    destruct (Ascii.eqb c "{").
    { destruct depth as [ | inner]; [discriminate | ].
      pose proof (skip_ws_length rest) as Hws.
      destruct (skip_ws rest) as [ | c1 r1]; [discriminate | ].
      destruct (Ascii.eqb c1 "}").
      - injection H as _ <-. cbn [String.length] in *. lia.
      - apply IHm in H. cbn [String.length] in *. lia. }
    destruct (Ascii.eqb c "[").
    { destruct depth as [ | inner]; [discriminate | ].
      pose proof (skip_ws_length rest) as Hws.
      destruct (skip_ws rest) as [ | c1 r1]; [discriminate | ].
      destruct (Ascii.eqb c1 "]").
      - injection H as _ <-. cbn [String.length] in *. lia.
      - apply IHe in H. cbn [String.length] in *. lia. }
    destruct (prefix "null" (String c rest)) eqn:P1;
      [injection H as _ <-; drop_prefix P1; lia | ].
    destruct (prefix "true" (String c rest)) eqn:P2;
      [injection H as _ <-; drop_prefix P2; lia | ].
    destruct (prefix "false" (String c rest)) eqn:P3;
      [injection H as _ <-; drop_prefix P3; lia | ].
    destruct (prefix "NaN" (String c rest)) eqn:P4;
      [injection H as _ <-; drop_prefix P4; lia | ].
    destruct (prefix "Infinity" (String c rest)) eqn:P5;
      [injection H as _ <-; drop_prefix P5; lia | ].
    destruct (prefix "-Infinity" (String c rest)) eqn:P6;
      [injection H as _ <-; drop_prefix P6; lia | ].
    now apply scan_number_length in H.
  - intros depth acc s j tl H. cbn [scan_elements] in H.
    destruct (scan_once f depth s) as [j1 tl1 | | | e1] eqn:E; try discriminate.
    apply IHo in E. pose proof (skip_ws_length tl1) as Hws.
    destruct (skip_ws tl1) as [ | c r]; [discriminate | ].
    destruct (Ascii.eqb c "]").
    + injection H as _ <-. cbn [String.length] in *. lia.
    + destruct (Ascii.eqb c ","); [ | discriminate].
      apply IHe in H. pose proof (skip_ws_length r).
      cbn [String.length] in *. lia.
  - intros depth acc s j tl H. cbn [scan_members] in H.
    destruct s as [ | q after_q]; [discriminate | ].
    destruct (Ascii.eqb q "034"); [ | discriminate].
    destruct (scan_string after_q) as [[key tl0] | ] eqn:Ek; [ | discriminate].
    apply scan_string_length in Ek. pose proof (skip_ws_length tl0) as Hws0.
    destruct (skip_ws tl0) as [ | colon after_colon]; [discriminate | ].
    destruct (Ascii.eqb colon ":"); [ | discriminate].
    pose proof (skip_ws_length after_colon) as Hws1.
    destruct (scan_once f depth (skip_ws after_colon)) as [j1 tl1 | | | e1] eqn:E;
      try discriminate.
    apply IHo in E. pose proof (skip_ws_length tl1) as Hws2.
    destruct (skip_ws tl1) as [ | c r]; [discriminate | ].
    destruct (Ascii.eqb c "}").
    + injection H as _ <-. cbn [String.length] in *. lia.
    + destruct (Ascii.eqb c ","); [ | discriminate].
      apply IHm in H. pose proof (skip_ws_length r).
      cbn [String.length] in *. lia.
Qed.

Lemma scan_fuel_enough (fuel : nat) :
  (forall depth s,
      2 * String.length s + 1 <= fuel -> scan_once fuel depth s <> OutOfFuel)
  /\ (forall depth acc s,
        2 * String.length s + 2 <= fuel ->
        scan_elements fuel depth acc s <> OutOfFuel)
  /\ (forall depth acc s,
        2 * String.length s + 2 <= fuel ->
        scan_members fuel depth acc s <> OutOfFuel).
Proof.
  induction fuel as [ | f (IHo & IHe & IHm)].
  { repeat split; intros; lia. }
  destruct (scan_progress f) as (Po & _ & _).
  split; [ | split].
  - intros depth s Hf. destruct s as [ | c rest]; [discriminate | ].
    cbn [String.length] in Hf. cbn [scan_once].
    destruct (Ascii.eqb c "034").
    { destruct (scan_string rest) as [[raw tl'] | ]; discriminate. }
    destruct (Ascii.eqb c "{").
    { destruct depth as [ | inner]; [discriminate | ].
      pose proof (skip_ws_length rest) as Hws.
      destruct (skip_ws rest) as [ | c1 r1]; [discriminate | ].
      destruct (Ascii.eqb c1 "}"); [discriminate | ].
      apply IHm. cbn [String.length] in *. lia. }
    destruct (Ascii.eqb c "[").
    { destruct depth as [ | inner]; [discriminate | ].
      pose proof (skip_ws_length rest) as Hws.
      destruct (skip_ws rest) as [ | c1 r1]; [discriminate | ].
      destruct (Ascii.eqb c1 "]"); [discriminate | ].
      apply IHe. cbn [String.length] in *. lia. }
    repeat match goal with
           | |- (if ?b then _ else _) <> _ => destruct b; [discriminate | ]
           end.
    apply scan_number_fuel.
  - intros depth acc s Hf. cbn [scan_elements].
    destruct (scan_once f depth s) as [j1 tl1 | | | e1] eqn:E;
      [ | discriminate | | discriminate].
    + apply Po in E. pose proof (skip_ws_length tl1) as Hws.
      destruct (skip_ws tl1) as [ | c r]; [discriminate | ].
      destruct (Ascii.eqb c "]"); [discriminate | ].
      destruct (Ascii.eqb c ","); [ | discriminate].
      apply IHe. pose proof (skip_ws_length r).
      cbn [String.length] in *. lia.
    + exfalso. revert E. apply IHo. lia.
  - intros depth acc s Hf. cbn [scan_members].
    destruct s as [ | q after_q]; [discriminate | ].
    destruct (Ascii.eqb q "034"); [ | discriminate].
    destruct (scan_string after_q) as [[key tl0] | ] eqn:Ek; [ | discriminate].
    apply scan_string_length in Ek. pose proof (skip_ws_length tl0) as Hws0.
    destruct (skip_ws tl0) as [ | colon after_colon]; [discriminate | ].
    destruct (Ascii.eqb colon ":"); [ | discriminate].
    pose proof (skip_ws_length after_colon) as Hws1.
    destruct (scan_once f depth (skip_ws after_colon)) as [j1 tl1 | | | e1] eqn:E;
      [ | discriminate | | discriminate].
    + apply Po in E. pose proof (skip_ws_length tl1) as Hws2.
      destruct (skip_ws tl1) as [ | c r]; [discriminate | ].
      destruct (Ascii.eqb c "}"); [discriminate | ].
      destruct (Ascii.eqb c ","); [ | discriminate].
      apply IHm. pose proof (skip_ws_length r).
      cbn [String.length] in *. lia.
    + exfalso. revert E. apply IHo. cbn [String.length] in *. lia.
Qed.

(** The fuel [json_loads] hands to the scanner is always enough: when it
    raises, the text is not JSON. *)
Lemma json_loads_fuel (s : string) :
  scan_once (json_fuel (skip_ws s)) recursion_budget (skip_ws s) <> OutOfFuel.
Proof.
  apply (proj1 (scan_fuel_enough (json_fuel (skip_ws s)))).
  unfold json_fuel. lia.
Qed.

(** ** xml_bool *)

Lemma prefix_head_differs (a c : ascii) (p r : string) :
  Ascii.eqb c a = false -> prefix (String a p) (String c r) = false.
Proof.
  intros H. cbn [prefix]. destruct (ascii_dec a c) as [E | E]; [ | reflexivity].
  subst c. now rewrite Ascii.eqb_refl in H.
Qed.

Lemma scan_once_no_start (fuel depth : nat) (c : ascii) (rest : string) :
  starts_value c = false -> scan_once (S fuel) depth (String c rest) = NoParse.
Proof.
  unfold starts_value. intros H.
  repeat (apply orb_false_elim in H; destruct H as [H ?]).
  cbn [scan_once].
  repeat match goal with
         | E : Ascii.eqb c ?a = false |- context [Ascii.eqb c ?a] => rewrite E
         end.
  rewrite !prefix_head_differs by assumption.
  unfold scan_number.
  repeat match goal with
         | E : Ascii.eqb c ?a = false |- context [Ascii.eqb c ?a] => rewrite E
         end.
  unfold scan_int_part.
  destruct (Ascii.eqb c "0") eqn:E0.
  - apply Ascii.eqb_eq in E0. subst c. discriminate.
  - match goal with E : is_digit c = false |- _ => rewrite E end. reflexivity.
Qed.

Lemma json_loads_no_start (s : string) (c : ascii) (rest : string) :
  skip_ws s = String c rest ->
  starts_value c = false ->
  json_loads s = raise JSONDecodeError.
Proof.
  intros Hs Hc. unfold json_loads, json_fuel. rewrite Hs.
  cbn [String.length Nat.mul]. rewrite Nat.add_comm. cbn [Nat.add].
  now rewrite (scan_once_no_start _ _ _ _ Hc).
Qed.

(** ** xml_bool on words *)

Lemma alpha_is_no_start (c : ascii) :
  is_alpha c = true ->
  is_ws c = false
  /\ Ascii.eqb c "034" = false /\ Ascii.eqb c "{" = false
  /\ Ascii.eqb c "[" = false /\ Ascii.eqb c "-" = false
  /\ Ascii.eqb c "0" = false /\ is_digit c = false.
Proof.
  destruct c as [[ | ] [ | ] [ | ] [ | ] [ | ] [ | ] [ | ] [ | ]];
    intros H; try discriminate H; repeat split; reflexivity.
Qed.

Lemma skip_ws_alpha (s : string) : all_alpha s = true -> skip_ws s = s.
Proof.
  destruct s as [ | c s]; [reflexivity | ]. cbn [all_alpha skip_ws].
  intros H. apply andb_prop in H. destruct H as [Hc _].
  destruct (alpha_is_no_start c Hc) as [Hws _]. now rewrite Hws.
Qed.

Lemma all_alpha_drop (n : nat) (s : string) :
  all_alpha s = true -> all_alpha (str_drop n s) = true.
Proof.
  revert s. induction n as [ | n IH]; intros s H; [now destruct s | ].
  destruct s as [ | c s]; [reflexivity | ]. cbn [str_drop].
  apply IH. cbn [all_alpha] in H. now apply andb_prop in H.
Qed.

Lemma prefix_split (p s : string) :
  prefix p s = true -> s = p ++ str_drop (String.length p) s.
Proof.
  revert s. induction p as [ | a p IH]; intros s H.
  - now destruct s.
  - destruct s as [ | c s]; [discriminate | ].
    cbn [prefix] in H. destruct (ascii_dec a c) as [<- | ]; [ | discriminate].
    cbn [String.length str_drop append]. now rewrite <- (IH s H).
Qed.

Lemma prefix_refl (p : string) : prefix p p = true.
Proof.
  induction p as [ | a p IH]; [reflexivity | ].
  cbn [prefix]. now destruct (ascii_dec a a).
Qed.

Lemma no_prefix_differs (p s : string) :
  prefix p s = false -> String.eqb s p = false.
Proof.
  intros H. destruct (String.eqb s p) eqn:E; [ | reflexivity].
  apply String.eqb_eq in E. subst s. now rewrite prefix_refl in H.
Qed.

(** The value of a constant followed by letters only: the constant when
    nothing follows, no JSON text otherwise. *)
Lemma constant_then_letters (j : json) (tl : string) :
  all_alpha tl = true ->
  match skip_ws tl with
  | EmptyString => ret j
  | String _ _ => raise JSONDecodeError
  end
  = if String.eqb tl EmptyString then ret j else raise JSONDecodeError.
Proof.
  intros H. rewrite (skip_ws_alpha _ H). now destruct tl.
Qed.

Lemma xml_bool_words (s : string) :
  all_alpha s = true ->
  xml_bool (VStr s) =
    if String.eqb s "true" || String.eqb s "NaN" || String.eqb s "Infinity"
    then ret true
    else if String.eqb s "false" || String.eqb s "null" then ret false
    else raise JSONDecodeError.
Proof.
  intros Halpha. destruct s as [ | c rest]; [reflexivity | ].
  pose proof Halpha as Hc. cbn [all_alpha] in Hc. apply andb_prop in Hc.
  destruct Hc as [Hc _].
  destruct (alpha_is_no_start c Hc) as (_ & Hq & Hb & Hk & Hm & H0 & Hd).
  cbn [xml_bool VStr]. unfold json_loads, json_fuel.
  rewrite (skip_ws_alpha _ Halpha).
  cbn [String.length Nat.mul]. rewrite Nat.add_comm. cbn [Nat.add scan_once].
  rewrite Hq, Hb, Hk.
  destruct (prefix "null" (String c rest)) eqn:P1.
  { rewrite (constant_then_letters _ _ (all_alpha_drop 4 _ Halpha)).
    rewrite (prefix_split _ _ P1). cbn [String.length].
    destruct (str_drop 4 (String c rest)); reflexivity. }
  destruct (prefix "true" (String c rest)) eqn:P2.
  { rewrite (constant_then_letters _ _ (all_alpha_drop 4 _ Halpha)).
    rewrite (prefix_split _ _ P2). cbn [String.length].
    destruct (str_drop 4 (String c rest)); reflexivity. }
  destruct (prefix "false" (String c rest)) eqn:P3.
  { rewrite (constant_then_letters _ _ (all_alpha_drop 5 _ Halpha)).
    rewrite (prefix_split _ _ P3). cbn [String.length].
    destruct (str_drop 5 (String c rest)); reflexivity. }
  destruct (prefix "NaN" (String c rest)) eqn:P4.
  { rewrite (constant_then_letters _ _ (all_alpha_drop 3 _ Halpha)).
    rewrite (prefix_split _ _ P4). cbn [String.length].
    destruct (str_drop 3 (String c rest)); reflexivity. }
  destruct (prefix "Infinity" (String c rest)) eqn:P5.
  { rewrite (constant_then_letters _ _ (all_alpha_drop 8 _ Halpha)).
    rewrite (prefix_split _ _ P5). cbn [String.length].
    destruct (str_drop 8 (String c rest)); reflexivity. }
  rewrite (prefix_head_differs "-" c "Infinity" rest Hm).
  rewrite (no_prefix_differs _ _ P1), (no_prefix_differs _ _ P2),
    (no_prefix_differs _ _ P3), (no_prefix_differs _ _ P4),
    (no_prefix_differs _ _ P5).
  unfold scan_number. rewrite Hm. unfold scan_int_part. rewrite H0, Hd.
  reflexivity.
Qed.

(** X18.  Among the strings made of letters only, [xml_bool] gives true
    for "true", "NaN" and "Infinity", false for "false" and "null", and
    raises [JSONDecodeError] for every other one ("True", "yes", the
    empty string, ...). *)
Theorem xml_bool_on_words (s : string) :
  all_alpha s = true ->
  xml_bool (VStr s) =
    if String.eqb s "true" || String.eqb s "NaN" || String.eqb s "Infinity"
    then ret true
    else if String.eqb s "false" || String.eqb s "null" then ret false
    else raise JSONDecodeError.
Proof. exact (xml_bool_words s). Qed.

(** C5, as amended.  [xml_bool] maps "true" to true and "false" to
    false.  It raises [JSONDecodeError] for "maybe", for a blank string,
    for every string whose first non-blank character cannot begin a JSON
    value, and for every string of letters other than "true", "false",
    "null", "NaN" and "Infinity".  Other inputs do not all raise: "1"
    and " true " give true, "0" and "null" give false. *)
Theorem xml_bool_decoding :
  xml_bool (VStr "true") = ret true
  /\ xml_bool (VStr "false") = ret false
  /\ xml_bool (VStr "maybe") = raise JSONDecodeError
  /\ (forall (s : string) (c : ascii) (rest : string),
        skip_ws s = String c rest ->
        starts_value c = false ->
        xml_bool (VStr s) = raise JSONDecodeError)
  /\ (forall s : string,
        skip_ws s = EmptyString -> xml_bool (VStr s) = raise JSONDecodeError)
  /\ (forall s : string,
        all_alpha s = true ->
        s <> "true" -> s <> "false" -> s <> "null" ->
        s <> "NaN" -> s <> "Infinity" ->
        xml_bool (VStr s) = raise JSONDecodeError)
  /\ xml_bool (VStr "1") = ret true
  /\ xml_bool (VStr " true ") = ret true
  /\ xml_bool (VStr "0") = ret false
  /\ xml_bool (VStr "null") = ret false.
Proof.
  split; [reflexivity | ].
  split; [reflexivity | ].
  split; [reflexivity | ].
  split; [ | split; [ | split; [ | repeat split]]].
  - intros s c rest Hs Hc. cbn [xml_bool VStr].
    now rewrite (json_loads_no_start _ _ _ Hs Hc).
  - intros s Hs. cbn [xml_bool VStr]. unfold json_loads. rewrite Hs. reflexivity.
  - intros s Halpha Ht Hf Hn Ha Hi. rewrite (xml_bool_words s Halpha).
    apply String.eqb_neq in Ht, Hf, Hn, Ha, Hi.
    now rewrite Ht, Hf, Hn, Ha, Hi.
Qed.

(** ** What decoding can raise *)

Lemma scan_number_throws (s : string) (e : exn) :
  scan_number s = Throws e -> e = ValueError.
Proof.
  unfold scan_number.
  destruct (match s with
            | String c rest => if Ascii.eqb c "-" then (true, rest) else (false, s)
            | EmptyString => (false, s)
            end) as [neg s1].
  destruct (scan_int_part s1) as [[ip s2] | ]; [ | discriminate].
  destruct (scan_frac s2) as [frac s3].
  destruct (scan_exp s3) as [ex s4].
  destruct frac, ex; try discriminate.
  destruct (exceeds_digit_limit (String.length ip)); [ | discriminate].
  now intros [= <-].
Qed.

Lemma scan_throws (fuel : nat) :
  (forall depth s e,
      scan_once fuel depth s = Throws e -> e = ValueError \/ e = RecursionError)
  /\ (forall depth acc s e,
        scan_elements fuel depth acc s = Throws e ->
        e = ValueError \/ e = RecursionError)
  /\ (forall depth acc s e,
        scan_members fuel depth acc s = Throws e ->
        e = ValueError \/ e = RecursionError).
Proof.
  induction fuel as [ | f (IHo & IHe & IHm)].
  { repeat split; intros; discriminate. }
  split; [ | split].
  - intros depth s e H. destruct s as [ | c rest]; [discriminate | ].
    cbn [scan_once] in H.
    destruct (Ascii.eqb c "034").
    { destruct (scan_string rest) as [[raw tl'] | ]; discriminate. }
    destruct (Ascii.eqb c "{").
    { destruct depth as [ | inner]; [right; now injection H as <- | ].
      destruct (skip_ws rest) as [ | c1 r1]; [discriminate | ].
      destruct (Ascii.eqb c1 "}"); [discriminate | ].
      now apply IHm in H. }
    destruct (Ascii.eqb c "[").
    { destruct depth as [ | inner]; [right; now injection H as <- | ].
      destruct (skip_ws rest) as [ | c1 r1]; [discriminate | ].
      destruct (Ascii.eqb c1 "]"); [discriminate | ].
      now apply IHe in H. }
    repeat match type of H with
           | (if ?b then _ else _) = _ => destruct b; [discriminate | ]
           end.
    left. now apply scan_number_throws in H.
  - intros depth acc s e H. cbn [scan_elements] in H.
    destruct (scan_once f depth s) as [j1 tl1 | | | e1] eqn:E; try discriminate.
    + destruct (skip_ws tl1) as [ | c r]; [discriminate | ].
      destruct (Ascii.eqb c "]"); [discriminate | ].
      destruct (Ascii.eqb c ","); [ | discriminate].
      now apply IHe in H.
    + injection H as <-. now apply IHo in E.
  - intros depth acc s e H. cbn [scan_members] in H.
    destruct s as [ | q after_q]; [discriminate | ].
    destruct (Ascii.eqb q "034"); [ | discriminate].
    destruct (scan_string after_q) as [[key tl0] | ]; [ | discriminate].
    destruct (skip_ws tl0) as [ | colon after_colon]; [discriminate | ].
    destruct (Ascii.eqb colon ":"); [ | discriminate].
    destruct (scan_once f depth (skip_ws after_colon)) as [j1 tl1 | | | e1] eqn:E;
      try discriminate.
    + destruct (skip_ws tl1) as [ | c r]; [discriminate | ].
      destruct (Ascii.eqb c "}"); [discriminate | ].
      destruct (Ascii.eqb c ","); [ | discriminate].
      now apply IHm in H.
    + injection H as <-. now apply IHo in E.
Qed.

Lemma json_loads_raises (s : string) (e : exn) :
  json_loads s = raise e ->
  e = JSONDecodeError \/ e = ValueError \/ e = RecursionError.
Proof.
  unfold json_loads.
  destruct (scan_once (json_fuel (skip_ws s)) recursion_budget (skip_ws s))
    as [j tl | | | e1] eqn:E.
  - destruct (skip_ws tl); [discriminate | ]. intros [= <-]. now left.
  - intros [= <-]. now left.
  - intros [= <-]. now left.
  - intros [= <-]. right.
    exact (proj1 (scan_throws _) _ _ _ E).
Qed.

(** X6.  [Pod.primary] depends on the [@primary] attribute only: without
    it the value is false; with a string it is the truth value of the
    decoded JSON text, or what decoding raises ([JSONDecodeError],
    [ValueError] for an over-long integer, [RecursionError] for too deep
    a nesting); with anything else it raises [TypeError].  It never
    ends in [AttributeError], never falls back to a field, and what it
    returns is a boolean. *)
Theorem Pod_primary_outcomes (self : view) :
  Pod_primary self =
    match dict_lookup "@primary" (view_doc self) with
    | None => ret (OBool false)
    | Some (One (IStr s)) =>
        match json_loads s with
        | inr j => ret (OBool (truth j))
        | inl e => raise e
        end
    | Some _ => raise TypeError
    end
  /\ (forall e, Pod_primary self = raise e ->
                e = TypeError \/ e = JSONDecodeError
                \/ e = ValueError \/ e = RecursionError)
  /\ (forall o, Pod_primary self = ret o -> exists b, o = OBool b).
Proof.
  assert (Heq : Pod_primary self =
                match dict_lookup "@primary" (view_doc self) with
                | None => ret (OBool false)
                | Some (One (IStr s)) =>
                    match json_loads s with
                    | inr j => ret (OBool (truth j))
                    | inl e => raise e
                    end
                | Some _ => raise TypeError
                end).
  { unfold Pod_primary, dict_mem, dict_getitem.
    destruct (dict_lookup "@primary" (view_doc self)) as [v | ]; [ | reflexivity].
    cbn [bind ret]. destruct v as [[ | s | m] | l]; try reflexivity.
    cbn [xml_bool]. destruct (json_loads s) as [e | j] eqn:E; [ | reflexivity].
    cbn [bind property].
    destruct (json_loads_raises _ _ E) as [-> | [-> | ->]]; reflexivity. }
  split; [exact Heq | ]. rewrite Heq. split.
  - intros e H.
    destruct (dict_lookup "@primary" (view_doc self)) as [[[ | s | m] | l] | ];
      try discriminate; try (injection H as <-; now left).
    destruct (json_loads s) as [e' | j] eqn:E; [ | discriminate].
    injection H as <-. right. exact (json_loads_raises _ _ E).
  - intros o H.
    destruct (dict_lookup "@primary" (view_doc self)) as [[[ | s | m] | l] | ];
      try discriminate.
    + destruct (json_loads s) as [e' | j]; [discriminate | ].
      injection H as <-. now eexists.
    + injection H as <-. now eexists.
Qed.

(** ** xml_bool on numerals *)

Lemma digit_is_no_start (c : ascii) :
  is_digit c = true ->
  is_ws c = false
  /\ Ascii.eqb c "034" = false /\ Ascii.eqb c "{" = false
  /\ Ascii.eqb c "[" = false /\ Ascii.eqb c "-" = false
  /\ Ascii.eqb c "n" = false /\ Ascii.eqb c "t" = false
  /\ Ascii.eqb c "f" = false /\ Ascii.eqb c "N" = false
  /\ Ascii.eqb c "I" = false /\ Ascii.eqb c "." = false
  /\ Ascii.eqb c "e" = false /\ Ascii.eqb c "E" = false
  /\ (0 <= Z.of_N (N_of_ascii c) - 48)%Z
  /\ (Ascii.eqb c "0" = false -> 1 <= Z.of_N (N_of_ascii c) - 48)%Z.
Proof.
  destruct c as [[ | ] [ | ] [ | ] [ | ] [ | ] [ | ] [ | ] [ | ]];
    intros H; try discriminate H;
    repeat split; try reflexivity; try discriminate; cbn; intros; lia.
Qed.

Lemma span_digits_all (s : string) :
  all_digits s = true -> span_digits s = (s, EmptyString).
Proof.
  induction s as [ | c s IH]; [reflexivity | ]. cbn [all_digits span_digits].
  intros H. apply andb_prop in H. destruct H as [Hc Hs].
  rewrite Hc, (IH Hs). reflexivity.
Qed.

Lemma digits_value_grows (ds : string) (acc : Z) :
  all_digits ds = true -> (0 <= acc)%Z -> (acc <= digits_value acc ds)%Z.
Proof.
  revert acc. induction ds as [ | c ds IH]; intros acc H Hacc; cbn [digits_value].
  - lia.
  - cbn [all_digits] in H. apply andb_prop in H. destruct H as [Hc Hs].
    destruct (digit_is_no_start c Hc)
      as (_ & _ & _ & _ & _ & _ & _ & _ & _ & _ & _ & _ & _ & Hv & _).
    specialize (IH (10 * acc + Z.of_N (N_of_ascii c) - 48)%Z Hs). lia.
Qed.

Lemma no_frac_no_exp (s : string) :
  all_digits s = true -> scan_frac s = (None, s) /\ scan_exp s = (None, s).
Proof.
  destruct s as [ | c s]; [split; reflexivity | ].
  cbn [all_digits]. intros H. apply andb_prop in H. destruct H as [Hc _].
  destruct (digit_is_no_start c Hc)
    as (_ & _ & _ & _ & _ & _ & _ & _ & _ & _ & Hdot & He & HE & _).
  split.
  - unfold scan_frac. destruct s; [reflexivity | ]. now rewrite Hdot.
  - unfold scan_exp. now rewrite He, HE.
Qed.

(** X20.  On a non-empty string of decimal digits [xml_bool] gives
    false for "0", raises [JSONDecodeError] for a longer string that
    begins with "0", raises [ValueError] for one that has more digits
    than the interpreter's limit for integers allows, and gives true for
    every other one. *)
Theorem xml_bool_on_numerals (c : ascii) (rest : string) :
  all_digits (String c rest) = true ->
  xml_bool (VStr (String c rest)) =
    if Ascii.eqb c "0"
    then if String.eqb rest EmptyString then ret false
         else raise JSONDecodeError
    else if exceeds_digit_limit (String.length (String c rest))
         then raise ValueError
         else ret true.
Proof.
  intros Hall. pose proof Hall as H. cbn [all_digits] in H.
  apply andb_prop in H. destruct H as [Hc Hrest].
  destruct (digit_is_no_start c Hc)
    as (Hws & Hq & Hb & Hk & Hm & Hn & Ht & Hf & HN & HI & _ & _ & _ & Hv & Hpos).
  cbn [xml_bool VStr]. unfold json_loads, json_fuel.
  cbn [skip_ws]. rewrite Hws.
  cbn [String.length Nat.mul]. rewrite Nat.add_comm. cbn [Nat.add scan_once].
  rewrite Hq, Hb, Hk.
  rewrite (prefix_head_differs "n" c "ull" rest Hn),
    (prefix_head_differs "t" c "rue" rest Ht),
    (prefix_head_differs "f" c "alse" rest Hf),
    (prefix_head_differs "N" c "aN" rest HN),
    (prefix_head_differs "I" c "nfinity" rest HI),
    (prefix_head_differs "-" c "Infinity" rest Hm).
  unfold scan_number. rewrite Hm. unfold scan_int_part.
  destruct (Ascii.eqb c "0") eqn:E0.
  - destruct (no_frac_no_exp rest Hrest) as [Hfr Hex]. rewrite Hfr, Hex.
    apply Ascii.eqb_eq in E0. subst c.
    assert (Hone : exceeds_digit_limit (String.length "0") = false)
      by reflexivity.
    rewrite Hone.
    destruct rest as [ | c1 rest1]; [reflexivity | ].
    cbn [all_digits] in Hrest. apply andb_prop in Hrest.
    destruct Hrest as [Hc1 _].
    destruct (digit_is_no_start c1 Hc1) as (Hws1 & _).
    cbn [skip_ws]. rewrite Hws1. reflexivity.
  - rewrite Hc, (span_digits_all _ Hall).
    cbn [scan_frac scan_exp].
    cbn [String.length].
    destruct (exceeds_digit_limit (S (String.length rest)));
      [reflexivity | ].
    cbn [skip_ws bind ret truth].
    assert (Hnz : (1 <= digits_value 0 (String c rest))%Z).
    { cbn [digits_value].
      pose proof (digits_value_grows rest
                    (10 * 0 + Z.of_N (N_of_ascii c) - 48)%Z Hrest).
      specialize (Hpos eq_refl). lia. }
    destruct (digits_value 0 (String c rest) =? 0)%Z eqn:Ez; [ | reflexivity].
    apply Z.eqb_eq in Ez. lia.
Qed.

End Views.

Arguments Client {session} app_id client_session url.
Arguments app_id {session} c.
Arguments client_session {session} c.
Arguments url {session} c.
Arguments Client_init {session} app_id s.
Arguments query_data {session} self input params kwargs.

(** * Closed instances *)

Lemma getattr_protocol_witness :
  getattr int_unused float_unused repr_unused
    (View Assumption [("@template", VStr "t"); ("word", VStr "")]) "word"
  = ret (OVal (VStr "")).
Proof.
  apply (getattr_protocol int_unused float_unused repr_unused
           (View Assumption [("@template", VStr "t"); ("word", VStr "")]) "word");
    reflexivity.
Defined.

Lemma construction_checks_error_witness :
  construct repr_unused Pod (VDict failed_doc)
    = raise (Exception "Error 1: Invalid appid")
  /\ construct repr_unused Result (VDict flagged_doc)
    = ret (View Result flagged_doc)
  /\ Result_init repr_unused (decoded_as [("queryresult", VDict failed_doc)]) "<xml/>"
    = construct repr_unused Result (VDict failed_doc).
Proof.
  split; [ | split].
  - apply (proj1 (construction_checks_error repr_unused
                    (decoded_as [("queryresult", VDict failed_doc)])
                    Pod failed_doc eq_refl) error_block "1" "Invalid appid");
      reflexivity.
  - apply (proj1 (proj2 (construction_checks_error repr_unused
                    (decoded_as [("queryresult", VDict failed_doc)])
                    Result flagged_doc eq_refl))).
    reflexivity.
  - apply (proj2 (proj2 (construction_checks_error repr_unused
                    (decoded_as [("queryresult", VDict failed_doc)])
                    Result failed_doc eq_refl))
             "<xml/>" [("queryresult", VDict failed_doc)]);
      reflexivity.
Defined.

Lemma attribute_error_key_ignored_witness :
  construct repr_unused Pod (VDict flagged_doc) = ret (View Pod flagged_doc)
  /\ Result_init repr_unused (decoded_as [("queryresult", VDict flagged_doc)]) "<xml/>"
     = ret (View Result flagged_doc).
Proof.
  split.
  - apply (proj1 (attribute_error_key_ignored repr_unused
                    (decoded_as [("queryresult", VDict flagged_doc)])
                    Pod flagged_doc (VStr "true") eq_refl eq_refl eq_refl)).
  - apply (proj2 (attribute_error_key_ignored repr_unused
                    (decoded_as [("queryresult", VDict flagged_doc)])
                    Result flagged_doc (VStr "true") eq_refl eq_refl eq_refl)
             "<xml/>" [("queryresult", VDict flagged_doc)]);
      reflexivity.
Defined.

Lemma xml_bool_decoding_witness :
  xml_bool default_max_str_digits ample_depth (VStr " maybe")
    = raise JSONDecodeError
  /\ xml_bool default_max_str_digits ample_depth (VStr "  ")
     = raise JSONDecodeError
  /\ xml_bool default_max_str_digits ample_depth (VStr "True")
     = raise JSONDecodeError.
Proof.
  destruct (xml_bool_decoding default_max_str_digits ample_depth)
    as (_ & _ & _ & Hstart & Hblank & Hwords & _).
  split; [ | split].
  - apply (Hstart " maybe" "m"%char "aybe"); reflexivity.
  - apply (Hblank "  "). reflexivity.
  - apply (Hwords "True"); [reflexivity | discriminate ..].
Defined.

(** "1" is neither literal, and it decodes to true. *)
Lemma xml_bool_coerces_number :
  "1" <> "true" /\ "1" <> "false"
  /\ xml_bool default_max_str_digits ample_depth (VStr "1") = ret true
  /\ xml_bool default_max_str_digits ample_depth (VStr "0") = ret false
  /\ xml_bool default_max_str_digits ample_depth (VStr "null") = ret false
  /\ xml_bool default_max_str_digits ample_depth (VStr " true ") = ret true.
Proof. repeat split; (discriminate || reflexivity). Qed.

(** C1.  The response of the specification's own example: one pod titled
    "Result" with one subpod of plain text "3.14159".  [details] does
    not map the title to that text; it raises. *)
Theorem details_raises_on_result_pod :
  Result_details int_unused float_unused repr_unused
    (View Result [("pod", VDict result_pod)])
  = raise (AttributeError "details")
  /\ Pod_text int_unused float_unused repr_unused (View Pod result_pod)
     = ret (OVal (VStr "3.14159")).
Proof. split; reflexivity. Qed.



Lemma Result_info_order_witness :
  construct repr_unused Result (VDict pi_doc) = ret (View Result pi_doc)
  /\ Result_init repr_unused (decoded_as [("queryresult", VDict pi_doc)]) "<xml/>"
     = ret (View Result pi_doc)
  /\ Result_len int_unused float_unused repr_unused (View Result pi_doc) = ret 3
  /\ Result_len int_unused float_unused repr_unused (View Result no_pods_doc)
     = raise (AttributeError "info").
Proof.
  destruct (Result_info_order int_unused float_unused repr_unused
              (decoded_as [("queryresult", VDict pi_doc)]) pi_doc eq_refl)
    as (Hnew & Hinit & Hinfo & _).
  split; [exact Hnew | ].
  split; [apply (Hinit "<xml/>" [("queryresult", VDict pi_doc)]); reflexivity | ].
  split.
  - apply (Hinfo (OIter (from_doc repr_unused Pod
                           (Many [IDict input_pod; IDict result_pod])))
                 (from_doc repr_unused Pod (Many [IDict input_pod; IDict result_pod]))
                 [pod_elem input_pod; pod_elem result_pod]
                 []
                 [EView (View Warning
                           [("@count", VStr "1");
                            ("spellcheck", VDict [("@word", VStr "pi")])])]);
      reflexivity.
  - apply (proj2 (proj2 (proj2
             (Result_info_order int_unused float_unused repr_unused
                (decoded_as [("queryresult", VDict pi_doc)])
                no_pods_doc eq_refl))));
      reflexivity.
Defined.

(** A response without pods and without an error block: the Result is
    built, and neither its length nor an iteration of it is to be had. *)
Lemma len_of_response_without_pods :
  dict_lookup "error" no_pods_doc = None
  /\ construct repr_unused Result (VDict no_pods_doc) = ret (View Result no_pods_doc)
  /\ Result_len int_unused float_unused repr_unused (View Result no_pods_doc)
     = raise (AttributeError "info")
  /\ Result_iter int_unused float_unused repr_unused (View Result no_pods_doc)
     = raise (AttributeError "info")
  /\ ~ (exists n : nat,
          Result_len int_unused float_unused repr_unused (View Result no_pods_doc)
          = ret n).
Proof.
  repeat split; try reflexivity. intros [n H]. discriminate H.
Qed.

Lemma readable_input_pod : readable default_max_str_digits ample_depth input_pod.
Proof.
  split.
  - intros v H. discriminate H.
  - intros _. discriminate.
Qed.

Lemma readable_result_pod : readable default_max_str_digits ample_depth result_pod.
Proof.
  split.
  - intros v H. injection H as <-. now exists true.
  - intros _. discriminate.
Qed.

Lemma Result_results_selected_witness :
  (exists it : iterator,
      Result_results default_max_str_digits ample_depth int_unused float_unused repr_unused (View Result pi_doc)
      = ret (OIter it)
      /\ iter_list it = ret [pod_elem result_pod])
  /\ Pod_primary default_max_str_digits ample_depth int_unused float_unused repr_unused (View Pod input_pod)
     = ret (OBool false).
Proof.
  destruct (Result_results_selected default_max_str_digits ample_depth int_unused float_unused repr_unused)
    as [Hsel Hprim].
  split.
  - apply (Hsel (View Result pi_doc)
                (OIter (from_doc repr_unused Pod
                          (Many [IDict input_pod; IDict result_pod])))
                (from_doc repr_unused Pod (Many [IDict input_pod; IDict result_pod]))
                [input_pod; result_pod]);
      try reflexivity.
    repeat constructor;
      [apply readable_input_pod | apply readable_input_pod
       | apply readable_result_pod | apply readable_result_pod].
  - apply Hprim. reflexivity.
Defined.

(** A Result whose one pod has neither a primary flag nor a title: the
    pods are there and the pod is not primary, yet [results] is not the
    empty subsequence: iterating it raises.  A response without pods
    has no [results] at all. *)
Lemma results_of_untitled_pod :
  (exists (pit : iterator) (p : dict),
      Result_pods int_unused float_unused repr_unused (View Result untitled_pod_doc)
      = ret (OIter pit)
      /\ iter_list pit = ret [pod_elem p]
      /\ Pod_primary default_max_str_digits ample_depth int_unused float_unused repr_unused (View Pod p)
         = ret (OBool false)
      /\ find_field p "title" = None)
  /\ (exists it : iterator,
        Result_results default_max_str_digits ample_depth int_unused float_unused repr_unused
          (View Result untitled_pod_doc) = ret (OIter it)
        /\ iter_list it = raise (AttributeError "title"))
  /\ Result_results default_max_str_digits ample_depth int_unused float_unused repr_unused (View Result no_pods_doc)
     = raise (AttributeError "results").
Proof.
  split; [ | split].
  - eexists. eexists. repeat split; reflexivity.
  - eexists. split; reflexivity.
  - reflexivity.
Qed.

Lemma Pod_text_first_subpod_witness :
  Pod_text int_unused float_unused repr_unused (View Pod input_pod)
    = ret (OVal (VStr "pi"))
  /\ Pod_text int_unused float_unused repr_unused
       (View Pod [("@title", VStr "Input"); ("subpod", VNone)])
     = raise StopIteration
  /\ Pod_text int_unused float_unused repr_unused (View Pod empty_pod)
     = raise (AttributeError "text")
  /\ Pod_text int_unused float_unused repr_unused
       (View Pod [("@text", VStr "hello")])
     = ret (OVal (VStr "hello"))
  /\ Pod_text int_unused float_unused repr_unused
       (View Pod [("subpod", VDict [("@title", VStr "")])])
     = raise (AttributeError "text").
Proof.
  split; [ | split; [ | split; [ | split]]].
  - apply (proj1 (Pod_text_first_subpod int_unused float_unused repr_unused
                    input_pod)
             (VDict [("@title", VStr ""); ("plaintext", VStr "pi")])
             [("@title", VStr ""); ("plaintext", VStr "pi")] []);
      reflexivity.
  - apply (proj1 (proj2 (Pod_text_first_subpod int_unused float_unused repr_unused
                           [("@title", VStr "Input"); ("subpod", VNone)]))
             VNone);
      reflexivity.
  - exact (proj1 (proj2 (proj2
             (Pod_text_first_subpod int_unused float_unused repr_unused
                empty_pod)))
             eq_refl).
  - exact (proj1 (proj2 (proj2
             (Pod_text_first_subpod int_unused float_unused repr_unused
                [("@text", VStr "hello")])))
             eq_refl).
  - exact (proj2 (proj2 (proj2
             (Pod_text_first_subpod int_unused float_unused repr_unused
                [("subpod", VDict [("@title", VStr "")])])))
             (VDict [("@title", VStr "")]) [("@title", VStr "")] []
             eq_refl eq_refl eq_refl).
Defined.

(** A pod announced with no subpods has no [subpod] key: [text] fails
    with the missing-attribute error, not with an empty-sequence one. *)
Lemma text_of_pod_without_subpods :
  find_field empty_pod "subpod" = None
  /\ Pod_text int_unused float_unused repr_unused (View Pod empty_pod)
     = raise (AttributeError "text")
  /\ Pod_text int_unused float_unused repr_unused (View Pod empty_pod)
     <> raise StopIteration.
Proof. repeat split; (reflexivity || discriminate). Qed.

Lemma Assumption_text_first_sentence_witness :
  Assumption_text int_unused float_unused repr_unused
    (View Assumption constant_assumption)
  = ret (OVal (VStr "Assuming x is a constant."))
  /\ Assumption_text int_unused float_unused repr_unused
       (View Assumption (("word", VStr "pi") :: constant_assumption))
     = ret (OVal (VStr "Assuming x is a constant.")).
Proof.
  split.
  - apply (Assumption_text_first_sentence int_unused float_unused repr_unused
             constant_assumption
             "Assuming ${desc1}. Use ${word} instead?" "x is a constant"
             "Assuming x is a constant. Use ${word} instead?" 24);
      try reflexivity.
    right. split; reflexivity.
  - apply (Assumption_text_first_sentence int_unused float_unused repr_unused
             (("word", VStr "pi") :: constant_assumption)
             "Assuming ${desc1}. Use ${word} instead?" "x is a constant"
             "Assuming x is a constant. Use pi instead?" 24);
      try reflexivity.
    left. exists "pi". split; reflexivity.
Defined.

(** ** Closed instances of the further properties *)

Lemma constructed_views_are_error_free_witness :
  (view_kind (View Result flagged_doc) = Result
   /\ dict_lookup "error" flagged_doc = None)
  /\ (view_kind (View Pod input_pod) = Pod
      /\ dict_lookup "error" input_pod = None).
Proof.
  destruct (constructed_views_are_error_free repr_unused
              (decoded_as [("queryresult", VDict flagged_doc)]))
    as [Hres Hpod].
  split.
  - apply (Hres "<xml/>"). reflexivity.
  - apply (Hpod (VDict input_pod)). left. reflexivity.
Defined.

Lemma error_key_always_fails_witness :
  construct repr_unused Pod (VDict [("error", VStr "out of service")])
    = raise TypeError
  /\ construct repr_unused Result
       (VDict [("error", VDict [("msg", VStr "Invalid appid")])])
     = raise (KeyError "code")
  /\ construct repr_unused Result
       (VDict [("error", VDict [("code", VStr "1")])])
     = raise (KeyError "msg").
Proof.
  split; [ | split].
  - apply (error_key_always_fails repr_unused Pod
             [("error", VStr "out of service")] (VStr "out of service")
             eq_refl eq_refl).
    intros m. discriminate.
  - apply (proj1 (proj2 (proj2
             (error_key_always_fails repr_unused Result
                [("error", VDict [("msg", VStr "Invalid appid")])]
                (VDict [("msg", VStr "Invalid appid")]) eq_refl eq_refl)))
             [("msg", VStr "Invalid appid")]);
      reflexivity.
  - apply (proj2 (proj2 (proj2
             (error_key_always_fails repr_unused Result
                [("error", VDict [("code", VStr "1")])]
                (VDict [("code", VStr "1")]) eq_refl eq_refl)))
             [("code", VStr "1")] (VStr "1"));
      reflexivity.
Defined.

Lemma pod_error_surfaces_on_iteration_witness :
  construct repr_unused Result
    (VDict [("pod", Many [IDict input_pod; IDict failed_pod; IDict result_pod])])
  = ret (View Result
           [("pod", Many [IDict input_pod; IDict failed_pod; IDict result_pod])])
  /\ Result_len int_unused float_unused repr_unused
       (View Result
          [("pod", Many [IDict input_pod; IDict failed_pod; IDict result_pod])])
     = raise (Exception "Error 1: Invalid appid").
Proof.
  destruct (pod_error_surfaces_on_iteration int_unused float_unused repr_unused
              [("pod", Many [IDict input_pod; IDict failed_pod; IDict result_pod])]
              (Many [IDict input_pod; IDict failed_pod; IDict result_pod])
              [input_pod] failed_pod error_block [IDict result_pod]
              "1" "Invalid appid"
              eq_refl eq_refl eq_refl
              (Forall_cons input_pod eq_refl (Forall_nil _))
              eq_refl eq_refl eq_refl)
    as (Hnew & _ & Hlen).
  split; assumption.
Defined.

Lemma Result_len_counts_iteration_witness :
  Result_len int_unused float_unused repr_unused (View Result pi_doc) = ret 3.
Proof.
  erewrite (Result_len_counts_iteration int_unused float_unused repr_unused
              (View Result pi_doc))
    by reflexivity.
  reflexivity.
Defined.

Lemma assumptions_wrap_the_container_witness :
  Result_assumptions int_unused float_unused repr_unused
    (View Result [("assumptions", VDict assumptions_container)])
  = ret (OIter [ret (EView (View Assumption assumptions_container))])
  /\ getattr int_unused float_unused repr_unused
       (View Assumption assumptions_container) "assumption"
     = ret (OVal (Many [IDict [("@type", VStr "Clash")];
                        IDict [("@type", VStr "Unit")]])).
Proof.
  destruct (assumptions_wrap_the_container int_unused float_unused repr_unused
              [("assumptions", VDict assumptions_container)]
              assumptions_container eq_refl)
    as [Hone Hraw].
  split; [exact Hone | ]. apply Hraw. reflexivity.
Defined.

Lemma Pod_texts_in_order_witness :
  Pod_texts int_unused float_unused repr_unused (View Pod two_subpods)
    = ret (inl [OVal (VStr "3.14159"); OVal (VStr "3.1416")])
  /\ Pod_texts int_unused float_unused repr_unused
       (View Pod [("subpod", Many [IDict [("plaintext", VStr "pi")];
                                   IDict [("@title", VStr "")]])])
     = raise (AttributeError "texts").
Proof.
  split.
  - apply (proj1 (Pod_texts_in_order int_unused float_unused repr_unused
                    two_subpods
                    (Many [IDict [("plaintext", VStr "3.14159")];
                           IDict [("plaintext", VStr "3.1416")]])
                    [[("plaintext", VStr "3.14159")];
                     [("plaintext", VStr "3.1416")]]
                    eq_refl eq_refl)
             [VStr "3.14159"; VStr "3.1416"]).
    repeat constructor.
  - apply (proj2 (Pod_texts_in_order int_unused float_unused repr_unused
                    [("subpod", Many [IDict [("plaintext", VStr "pi")];
                                      IDict [("@title", VStr "")]])]
                    (Many [IDict [("plaintext", VStr "pi")];
                           IDict [("@title", VStr "")]])
                    [[("plaintext", VStr "pi")]; [("@title", VStr "")]]
                    eq_refl eq_refl)).
    + right. left. reflexivity.
    + reflexivity.
Defined.

Lemma Pod_text_heads_texts_witness :
  Pod_text int_unused float_unused repr_unused (View Pod two_subpods)
    = ret (OVal (VStr "3.14159"))
  /\ Pod_text int_unused float_unused repr_unused
       (View Pod [("subpod", VNone)])
     = raise StopIteration.
Proof.
  split.
  - apply (proj1 (Pod_text_heads_texts int_unused float_unused repr_unused
                    (View Pod two_subpods))
             (OVal (VStr "3.14159")) [OVal (VStr "3.1416")]).
    reflexivity.
  - apply (proj2 (Pod_text_heads_texts int_unused float_unused repr_unused
                    (View Pod [("subpod", VNone)]))).
    reflexivity.
Defined.

Lemma details_last_write_wins_witness :
  exists m : list (hkey * value),
    Result_details int_unused float_unused repr_unused
      (View Result repeated_title_doc) = ret (ODict m)
    /\ hkey_lookup (KStr "Result") m = Some (VStr "new")
    /\ hkey_lookup (KStr "Input") m = None.
Proof.
  destruct (details_last_write_wins int_unused float_unused repr_unused
              repeated_title_doc
              (Many [IDict [("@title", VStr "Result"); ("plainText", VStr "old")];
                     IDict [("@title", VStr "Result"); ("plainText", VStr "new")]])
              [[("@title", VStr "Result"); ("plainText", VStr "old")];
               [("@title", VStr "Result"); ("plainText", VStr "new")]]
              eq_refl eq_refl)
    as [m [Hm Hlook]].
  - repeat constructor; try (eexists; reflexivity).
  - exists m. split; [exact Hm | ]. split; rewrite Hlook; reflexivity.
Defined.

Lemma Assumption_text_needs_full_stop_witness :
  Assumption_text int_unused float_unused repr_unused
    (View Assumption [("@template", VStr "Assuming ${desc1}.");
                      ("@description", VStr "x is a constant")])
  = raise ValueError.
Proof.
  apply (Assumption_text_needs_full_stop int_unused float_unused repr_unused
           [("@template", VStr "Assuming ${desc1}.");
            ("@description", VStr "x is a constant")]
           "Assuming ${desc1}." "x is a constant");
    reflexivity.
Defined.

Lemma Assumption_text_skips_bad_word_witness :
  Assumption_text int_unused float_unused repr_unused
    (View Assumption (("word", VNone) :: constant_assumption))
  = ret (OVal (VStr "Assuming x is a constant.")).
Proof.
  apply (Assumption_text_skips_bad_word int_unused float_unused repr_unused
           (("word", VNone) :: constant_assumption)
           "Assuming ${desc1}. Use ${word} instead?" "x is a constant"
           VNone 24);
    try reflexivity.
  intros s. discriminate.
Defined.

Lemma Assumption_text_falls_back_witness :
  Assumption_text int_unused float_unused repr_unused
    (View Assumption [("@type", VStr "Clash")])
  = raise (AttributeError "text")
  /\ Assumption_text int_unused float_unused repr_unused
       (View Assumption [("@template", VStr "Assuming ${desc1}. Or not");
                         ("text", VStr "as given")])
     = ret (OVal (VStr "as given")).
Proof.
  split.
  - exact (Assumption_text_falls_back int_unused float_unused repr_unused
             [("@type", VStr "Clash")] (or_introl eq_refl)).
  - exact (Assumption_text_falls_back int_unused float_unused repr_unused
             [("@template", VStr "Assuming ${desc1}. Or not");
              ("text", VStr "as given")]
             (or_intror (conj (ex_intro _ "Assuming ${desc1}. Or not" eq_refl)
                              eq_refl))).
Defined.

Lemma Result_results_yields_pods_witness :
  exists (it pit : iterator) (n : nat),
    Result_results default_max_str_digits ample_depth int_unused float_unused repr_unused
      (View Result untitled_pod_doc) = ret (OIter it)
    /\ yielded it
       = filter (accepts (is_result_pod default_max_str_digits ample_depth int_unused float_unused repr_unused))
                (firstn n (yielded pit)).
Proof.
  eexists. eexists.
  destruct (Result_results_yields_pods default_max_str_digits ample_depth int_unused float_unused repr_unused
              (View Result untitled_pod_doc) _ _ _ eq_refl eq_refl eq_refl)
    as [n Hn].
  exists n. split; [reflexivity | exact Hn].
Defined.

Lemma Assumption_text_one_sentence_witness :
  str_find ". " "Assuming x is a constant." = None
  /\ exists body, "Assuming x is a constant." = body ++ ".".
Proof.
  apply (Assumption_text_one_sentence int_unused float_unused repr_unused
           constant_assumption
           "Assuming ${desc1}. Use ${word} instead?" "x is a constant");
    reflexivity.
Defined.

Lemma xml_bool_on_words_witness :
  xml_bool default_max_str_digits ample_depth (VStr "True") = raise JSONDecodeError
  /\ xml_bool default_max_str_digits ample_depth (VStr "yes") = raise JSONDecodeError
  /\ xml_bool default_max_str_digits ample_depth (VStr "Infinity") = ret true.
Proof.
  split; [ | split].
  - exact (xml_bool_on_words default_max_str_digits ample_depth "True" eq_refl).
  - exact (xml_bool_on_words default_max_str_digits ample_depth "yes" eq_refl).
  - exact (xml_bool_on_words default_max_str_digits ample_depth "Infinity" eq_refl).
Defined.


Lemma query_asserts_content_type_witness :
  query repr_unused (decoded_as [("queryresult", VDict pi_doc)])
        nat nat numbered_session
        (server_answers (ret (Response (Some "application/json") (ret "{}"))))
        (Client_init "DEMO" None) "pi" [("format", "plaintext")]
        [("units", "metric")] 0
  = (AssertionError,
     Client "DEMO" (Some 0) "https://api.wolframalpha.com/v2/query",
     1).
Proof.
  apply (query_asserts_content_type repr_unused
           (decoded_as [("queryresult", VDict pi_doc)])
           nat nat numbered_session
           (server_answers (ret (Response (Some "application/json") (ret "{}"))))
           (Client_init "DEMO" None) "pi" [("format", "plaintext")]
           [("units", "metric")] 0 1
           (Response (Some "application/json") (ret "{}")) "application/json");
    [reflexivity | reflexivity | discriminate].
Defined.

Lemma query_keeps_session_witness :
  snd (fst (query repr_unused (decoded_as [("queryresult", VDict pi_doc)])
                  nat nat numbered_session
                  (server_answers (raise (Exception "connection lost")))
                  (Client_init "DEMO" (Some 7)) "pi" [] [] 0))
  = Client_init "DEMO" (Some 7).
Proof.
  exact (proj1 (proj2 (proj2 (proj2
           (query_keeps_session repr_unused
              (decoded_as [("queryresult", VDict pi_doc)])
              nat nat numbered_session
              (server_answers (raise (Exception "connection lost")))
              (Client_init "DEMO" (Some 7)) "pi" [] [] 0))))
           7 eq_refl).
Defined.

Lemma query_returns_sound_result_witness :
  view_kind (View Result pi_doc) = Result
  /\ dict_lookup "error" (view_doc (View Result pi_doc)) = None.
Proof.
  destruct (query_returns_sound_result repr_unused
              (decoded_as [("queryresult", VDict pi_doc)])
              nat nat numbered_session
              (server_answers
                 (ret (Response (Some "text/xml;charset=utf-8") (ret "<xml/>"))))
              (Client_init "DEMO" None) "pi" [] [] 0
              (View Result pi_doc) eq_refl)
    as (Hk & He & _).
  split; assumption.
Defined.

Lemma Result_init_failures_witness :
  Result_init repr_unused (decoded_as [("html", VNone)]) "<html/>"
    = raise (KeyError "queryresult")
  /\ Result_init repr_unused (decoded_as [("queryresult", VNone)]) "<queryresult/>"
     = raise TypeError
  /\ Result_init repr_unused (fun _ => raise (Exception "no element found")) ""
     = raise (Exception "no element found").
Proof.
  split; [ | split].
  - apply (proj2 (Result_init_failures repr_unused
                    (decoded_as [("html", VNone)]) "<html/>")
             [("html", VNone)] eq_refl).
    reflexivity.
  - apply (proj2 (Result_init_failures repr_unused
                    (decoded_as [("queryresult", VNone)]) "<queryresult/>")
             [("queryresult", VNone)] eq_refl).
    reflexivity.
  - apply (proj1 (Result_init_failures repr_unused
                    (fun _ => raise (Exception "no element found")) "")).
    reflexivity.
Defined.

Lemma xml_bool_on_numerals_witness :
  xml_bool default_max_str_digits ample_depth (VStr "1") = ret true
  /\ xml_bool default_max_str_digits ample_depth (VStr "0") = ret false
  /\ xml_bool default_max_str_digits ample_depth (VStr "01")
     = raise JSONDecodeError
  /\ xml_bool default_max_str_digits ample_depth (VStr (ones 4301))
     = raise ValueError.
Proof.
  split; [ | split; [ | split]].
  - exact (xml_bool_on_numerals default_max_str_digits ample_depth "1" "" eq_refl).
  - exact (xml_bool_on_numerals default_max_str_digits ample_depth "0" "" eq_refl).
  - exact (xml_bool_on_numerals default_max_str_digits ample_depth "0" "1" eq_refl).
  - change (ones 4301) with (String "1" (ones 4300)).
    rewrite (xml_bool_on_numerals default_max_str_digits ample_depth
               "1" (ones 4300));
      vm_compute; reflexivity.
Defined.

Lemma Pod_primary_outcomes_witness :
  (JSONDecodeError = TypeError \/ JSONDecodeError = JSONDecodeError
   \/ JSONDecodeError = ValueError \/ JSONDecodeError = RecursionError)
  /\ exists b : bool, OBool true = OBool b.
Proof.
  split.
  - apply (proj1 (proj2 (Pod_primary_outcomes default_max_str_digits ample_depth
                           int_unused float_unused repr_unused
                           (View Pod [("@primary", VStr "maybe")])))
             JSONDecodeError).
    reflexivity.
  - apply (proj2 (proj2 (Pod_primary_outcomes default_max_str_digits ample_depth
                           int_unused float_unused repr_unused
                           (View Pod result_pod)))
             (OBool true)).
    reflexivity.
Defined.

(** The interpreter's limits at work: an integer of 4301 digits under
    the default limit, and two arrays one inside the other with room for
    one. *)
Lemma decoder_limits :
  xml_bool default_max_str_digits ample_depth (VStr (ones 4300)) = ret true
  /\ xml_bool default_max_str_digits ample_depth (VStr (ones 4301))
     = raise ValueError
  /\ xml_bool 0 ample_depth (VStr (ones 4301)) = ret true
  /\ xml_bool default_max_str_digits 2 (VStr "[[]]") = ret true
  /\ xml_bool default_max_str_digits 1 (VStr "[[]]") = raise RecursionError.
Proof.
  split; [vm_compute; reflexivity | ].
  split; [vm_compute; reflexivity | ].
  split; [vm_compute; reflexivity | ].
  split; vm_compute; reflexivity.
Qed.
